(** * notify: a DingTalk robot client (dding_talk.go)

    A shallow embedding of the Go package [notify] and the properties of
    its message construction, request signing and send operation.

    Layout:
    - [Fmt], [Base64], [Sha256], [Hmac]: the Go standard-library routines
      the signing code calls ([fmt.Sprintf] with the verb d,
      [base64.StdEncoding], [crypto/sha256], [crypto/hmac]), written out
      so that signed URLs can be computed;
    - the data model of dding_talk.go ([Robot], [Message], [AtPeople],
      [Response]) over a store of robots, maps and mention structs;
    - the operations ([NewRobot], [BuildMsgAndSend], [send], [buildQuery],
      [TextType], [MarkDownType], [serialize], the [With...] options);
    - the notions the statements use, and a sample outside world;
    - the theorems. *)

From Stdlib Require Import ZArith Ascii String DecimalString.
From Stdlib.Strings Require Import Byte.
From stdpp Require Import gmap strings list.

#[local] Set Warnings "-clear-no-such-hyp".

(* ===================================================================== *)
(** ** fmt: the [%d] verb *)
(* ===================================================================== *)

Module Fmt.

(** [fmt.Sprintf("%d", n)] for a signed integer: decimal digits, a
    leading minus sign for negative numbers, no padding. *)
Definition d (n : Z) : string := NilZero.string_of_int (Z.to_int n).

End Fmt.

(* ===================================================================== *)
(** ** encoding/base64: [StdEncoding.EncodeToString] *)
(* ===================================================================== *)

Module Base64.

Local Open Scope N_scope.

(** The alphabet of RFC 4648, section 4. *)
Definition encodeStd : string :=
  "ABCDEFGHIJKLMNOPQRSTUVWXYZabcdefghijklmnopqrstuvwxyz0123456789+/".

Definition padChar : ascii := "="%char.

Definition sextet (i : N) : ascii :=
  match String.get (N.to_nat (i mod 64)) encodeStd with
  | Some c => c
  | None => padChar
  end.

(** Three source bytes become four characters; a tail of one or two
    bytes is padded with [=]. *)
Fixpoint encode (src : list byte) : string :=
  match src with
  | [] => EmptyString
  | [a] =>
      let v := Byte.to_N a * 65536 in
      String (sextet (v / 262144))
        (String (sextet (v / 4096))
           (String padChar (String padChar EmptyString)))
  | [a; b] =>
      let v := Byte.to_N a * 65536 + Byte.to_N b * 256 in
      String (sextet (v / 262144))
        (String (sextet (v / 4096))
           (String (sextet (v / 64)) (String padChar EmptyString)))
  | a :: b :: c :: rest =>
      let v := Byte.to_N a * 65536 + Byte.to_N b * 256 + Byte.to_N c in
      String (sextet (v / 262144))
        (String (sextet (v / 4096))
           (String (sextet (v / 64))
              (String (sextet v) (encode rest))))
  end.

End Base64.

(* ===================================================================== *)
(** ** crypto/sha256 *)
(* ===================================================================== *)

Module Sha256.

Local Open Scope Z_scope.

Definition wrap32 (x : Z) : Z := x mod 4294967296.
Definition add32 (x y : Z) : Z := wrap32 (x + y).
Definition rotr (n x : Z) : Z :=
  wrap32 (Z.lor (Z.shiftr x n) (Z.shiftl x (32 - n))).
Definition not32 (x : Z) : Z := 4294967295 - x.

Definition Ch (x y z : Z) : Z := Z.lxor (Z.land x y) (Z.land (not32 x) z).
Definition Maj (x y z : Z) : Z :=
  Z.lxor (Z.lxor (Z.land x y) (Z.land x z)) (Z.land y z).
Definition bsig0 (x : Z) : Z := Z.lxor (Z.lxor (rotr 2 x) (rotr 13 x)) (rotr 22 x).
Definition bsig1 (x : Z) : Z := Z.lxor (Z.lxor (rotr 6 x) (rotr 11 x)) (rotr 25 x).
Definition ssig0 (x : Z) : Z := Z.lxor (Z.lxor (rotr 7 x) (rotr 18 x)) (Z.shiftr x 3).
Definition ssig1 (x : Z) : Z := Z.lxor (Z.lxor (rotr 17 x) (rotr 19 x)) (Z.shiftr x 10).

(** The first sixty-four primes. *)
Definition is_prime (n : nat) : bool :=
  forallb (fun d => negb (Nat.eqb (n mod d) 0)) (seq 2 (n - 2)).

Definition primes : list Z :=
  map Z.of_nat (take 64 (filter (fun n => is_prime n = true) (seq 2 310))).

(** Integer cube root, found bit by bit from the top. *)
Definition icbrt (n : Z) : Z :=
  fold_left (fun r b => let c := r + 2 ^ b in if c * c * c <=? n then c else r)
            (map Z.of_nat (rev (seq 0 40))) 0.

(** The round constants: the first thirty-two bits of the fractional
    parts of the cube roots of the primes (FIPS 180-4, 4.2.2). *)
Definition K : list Z :=
  Eval vm_compute in map (fun p => wrap32 (icbrt (p * 2 ^ 96))) primes.

(** The eight working words. *)
Record digest := Digest {
  h0 : Z; h1 : Z; h2 : Z; h3 : Z; h4 : Z; h5 : Z; h6 : Z; h7 : Z }.

(** The initial hash value: the first thirty-two bits of the fractional
    parts of the square roots of the first eight primes (FIPS 180-4,
    5.3.3). *)
Definition init : digest :=
  Eval vm_compute in
    let h := fun i => wrap32 (Z.sqrt (nth i primes 0 * 2 ^ 64)) in
    Digest (h 0%nat) (h 1%nat) (h 2%nat) (h 3%nat)
           (h 4%nat) (h 5%nat) (h 6%nat) (h 7%nat).

Definition word (ws : list Z) (i : nat) : Z := nth i ws 0.

(** Message schedule: the sixteen block words extended to sixty-four. *)
Fixpoint extend (n : nat) (ws : list Z) : list Z :=
  match n with
  | O => ws
  | S n' =>
      let t := length ws in
      let w := add32 (add32 (ssig1 (word ws (t - 2))) (word ws (t - 7)))
                     (add32 (ssig0 (word ws (t - 15))) (word ws (t - 16))) in
      extend n' (ws ++ [w])
  end.

Definition round (s : digest) (kw : Z * Z) : digest :=
  let '(k, w) := kw in
  let t1 := add32 (add32 (add32 (h7 s) (bsig1 (h4 s))) (Ch (h4 s) (h5 s) (h6 s)))
                  (add32 k w) in
  let t2 := add32 (bsig0 (h0 s)) (Maj (h0 s) (h1 s) (h2 s)) in
  Digest (add32 t1 t2) (h0 s) (h1 s) (h2 s) (add32 (h3 s) t1) (h4 s) (h5 s) (h6 s).

Definition block (s : digest) (ws : list Z) : digest :=
  let r := fold_left round (combine K (extend 48 ws)) s in
  Digest (add32 (h0 s) (h0 r)) (add32 (h1 s) (h1 r))
         (add32 (h2 s) (h2 r)) (add32 (h3 s) (h3 r))
         (add32 (h4 s) (h4 r)) (add32 (h5 s) (h5 r))
         (add32 (h6 s) (h6 r)) (add32 (h7 s) (h7 r)).

(** Big-endian packing of bytes into 32-bit words. *)
Fixpoint words (bs : list Z) : list Z :=
  match bs with
  | a :: b :: c :: e :: rest =>
      (a * 16777216 + b * 65536 + c * 256 + e) :: words rest
  | _ => []
  end.

Fixpoint chunks (fuel : nat) (ws : list Z) : list (list Z) :=
  match fuel with
  | O => []
  | S fuel' =>
      match ws with
      | [] => []
      | _ => take 16 ws :: chunks fuel' (drop 16 ws)
      end
  end.

Definition be64 (n : Z) : list Z :=
  map (fun i => (n / 256 ^ i) mod 256) [7; 6; 5; 4; 3; 2; 1; 0].

(** Padding: a one bit, zero bytes up to 56 modulo 64, then the message
    length in bits as a 64-bit big-endian number. *)
Definition pad (bs : list Z) : list Z :=
  let len := Z.of_nat (length bs) in
  let zeros := Z.to_nat ((55 - len) mod 64) in
  bs ++ [128] ++ replicate zeros 0 ++ be64 (8 * len).

Definition be32 (w : Z) : list Z :=
  [ (w / 16777216) mod 256; (w / 65536) mod 256; (w / 256) mod 256; w mod 256 ].

Definition output (s : digest) : list Z :=
  be32 (h0 s) ++ be32 (h1 s) ++ be32 (h2 s) ++ be32 (h3 s) ++
  be32 (h4 s) ++ be32 (h5 s) ++ be32 (h6 s) ++ be32 (h7 s).

Definition sum256Z (bs : list Z) : list Z :=
  let ws := words (pad bs) in
  output (fold_left block (chunks (length ws) ws) init).

Definition byteZ (b : byte) : Z := Z.of_N (Byte.to_N b).
Definition Zbyte (z : Z) : byte :=
  byte_of_ascii (ascii_of_N (Z.to_N (z mod 256))).

(** [sha256.Sum256]. *)
Definition Sum256 (data : list byte) : list byte :=
  map Zbyte (sum256Z (map byteZ data)).

Definition BlockSize : nat := 64.

End Sha256.

(* ===================================================================== *)
(** ** crypto/hmac with SHA-256 *)
(* ===================================================================== *)

Module Hmac.

Definition xorByte (p : Z) (b : byte) : byte :=
  Sha256.Zbyte (Z.lxor p (Sha256.byteZ b)).

(** [hmac.New(sha256.New, key)]: a key longer than the block size is
    hashed first; the key is then padded with zero bytes. *)
Definition normKey (key : list byte) : list byte :=
  let k := if Nat.ltb Sha256.BlockSize (length key)
           then Sha256.Sum256 key else key in
  k ++ replicate (Sha256.BlockSize - length k) x00%byte.

(** Writing [msg] to the hash and taking [Sum(nil)]. *)
Definition Sum (key msg : list byte) : list byte :=
  let k := normKey key in
  let ipad := map (xorByte 54) k in
  let opad := map (xorByte 92) k in
  Sha256.Sum256 (opad ++ Sha256.Sum256 (ipad ++ msg)).

End Hmac.

(* ===================================================================== *)
(** ** dding_talk.go: constants and data model *)
(* ===================================================================== *)

(** [[]byte(s)]. *)
Definition bytes_of (s : string) : list byte := list_byte_of_string s.

(** The package constants.  The Go constant [at] is spelt [at_] here. *)
Module Const.
Definition apiUrl : string :=
  "https://oapi.dingtalk.com/robot/send?access_token=".
Definition textType : string := "text".
Definition markdownType : string := "markdown".
Definition msgType : string := "msgtype".
Definition at_ : string := "at".
Definition atMobiles : string := "atMobiles".
Definition atUserIds : string := "atUserIds".
Definition atAll : string := "isAtAll".
End Const.

(** The [interface{}] values that end up in a [Message]: the ones the
    package stores itself, and [VChan], a value of a kind no JSON encoder
    accepts, which a caller-written builder can store. *)
#[local] Unset Elimination Schemes.
Inductive Value :=
| VString (s : string)
| VBool (b : bool)
| VStrings (l : list string)             (* []string *)
| VStringMap (m : gmap string string)    (* map[string]string *)
| VMap (m : gmap string Value)           (* map[string]interface{} *)
| VChan.
#[local] Set Elimination Schemes.

(** [type Message map[string]interface{}] *)
Abbreviation Message := (gmap string Value).

Record AtPeople := mkAtPeople {
  atMobiles : list string;
  atUserIds : list string;
  isAtAll : bool }.

Record Response := mkResponse {
  ErrCode : Z;
  ErrMsg : string }.

(** References to objects of the store. *)
Abbreviation loc := positive.

(** [type Robot struct]; [data] refers to a map object and [at_] (the
    field [at]) to an [AtPeople] struct.  The logger [zlog] is
    represented by the log records of the trace. *)
Record Robot := mkRobot {
  AccessToken : string;
  Secret : string;
  data : loc;
  at_ : loc }.

(** Go [error] values: an error of one of the libraries, or the
    [*Response] that [send] returns. *)
Inductive error :=
| LibError (msg : string)
| RespError (resp : Response).

(** [*http.Response], by what [io.ReadAll] of its body yields. *)
Record HttpResponse := mkHttpResponse {
  Body : list byte + error }.

Record Heap := mkHeap {
  robots : gmap loc Robot;
  maps : gmap loc Message;
  people : gmap loc AtPeople }.

Inductive Event :=
| LogError (msg : string) (err : option error)
| LogInfo (msg : string)
| HttpPost (url contentType : string) (body : list byte)
| ReadAll.

(** The store: the heap, and the calls made to the outside world so far,
    each recorded with the heap at the moment of the call. *)
Record Store := mkStore {
  heap : Heap;
  trace : list (Event * Heap) }.

(** What the outside world answers during one call. *)
Record World := mkWorld {
  (** [time.Now().UnixMilli()] *)
  now : Z;
  (** [config.Build()] in [logInit]: [Some] is a failure *)
  logInit : option error;
  (** [sonic.Marshal] *)
  Marshal : Message -> list byte + error;
  (** [http.Post] *)
  Post : string -> string -> list byte -> HttpResponse + error;
  (** [sonic.Unmarshal(buf, result)]: the contents of [result] afterwards,
      and the error returned *)
  Unmarshal : list byte -> Response -> Response * option error }.

(* ===================================================================== *)
(** ** Computations over the store *)
(* ===================================================================== *)

(** A computation either yields a result and a new store, or stops the
    program ([None]): a run-time panic (assignment to an entry of a nil
    map, nil pointer dereference) or [log.Fatalln].  A reference that is
    not in the store stands for nil. *)
Definition M (A : Type) : Type := Store -> option (A * Store).

Definition ret {A} (a : A) : M A := fun s => Some (a, s).
Definition bind {A B} (c : M A) (k : A -> M B) : M B :=
  fun s => match c s with
           | Some (a, s') => k a s'
           | None => None
           end.
Definition panic {A} : M A := fun _ => None.

Declare Scope go_scope.
Delimit Scope go_scope with go.
Notation "'let*' x := c 'in' k" := (bind c (fun x => k))
  (at level 10, x name, c at level 100, k at level 200) : go_scope.
Notation "c ';;;' k" := (bind c (fun _ => k))
  (at level 100, k at level 200, right associativity) : go_scope.
Local Open Scope go_scope.

Definition get_heap : M Heap := fun s => Some (heap s, s).
Definition put_heap (h : Heap) : M unit :=
  fun s => Some (tt, mkStore h (trace s)).

(** A call to the outside world, recorded with the current heap. *)
Definition emit (e : Event) : M unit :=
  fun s => Some (tt, mkStore (heap s) (trace s ++ [(e, heap s)])).

(** [*r] *)
Definition getRobot (r : loc) : M Robot :=
  let* h := get_heap in
  match robots h !! r with
  | Some x => ret x
  | None => panic
  end.

(** [r.at = a] *)
Definition setRobotAt (r : loc) (a : loc) : M unit :=
  let* h := get_heap in
  match robots h !! r with
  | Some x =>
      put_heap (mkHeap
        (<[r := mkRobot (AccessToken x) (Secret x) (data x) a]> (robots h))
        (maps h) (people h))
  | None => panic
  end.

(** [&Robot{...}] *)
Definition allocRobot (x : Robot) : M loc :=
  let* h := get_heap in
  let r := fresh (dom (robots h)) in
  put_heap (mkHeap (<[r := x]> (robots h)) (maps h) (people h));;;
  ret r.

(** [make(Message)] *)
Definition makeMessage : M loc :=
  let* h := get_heap in
  let m := fresh (dom (maps h)) in
  put_heap (mkHeap (robots h) (<[m := ∅]> (maps h)) (people h));;;
  ret m.

(** [m[k] = v]; panics when [m] is nil. *)
Definition mapAssign (m : loc) (k : string) (v : Value) : M unit :=
  let* h := get_heap in
  match maps h !! m with
  | Some c => put_heap (mkHeap (robots h) (<[m := <[k := v]> c]> (maps h)) (people h))
  | None => panic
  end.

(** [clear(m)]; does nothing when [m] is nil. *)
Definition mapClear (m : loc) : M unit :=
  let* h := get_heap in
  match maps h !! m with
  | Some _ => put_heap (mkHeap (robots h) (<[m := ∅]> (maps h)) (people h))
  | None => ret tt
  end.

(** The contents of a map as an encoder reads them; a nil map has no
    entries. *)
Definition mapContents (m : loc) : M Message :=
  let* h := get_heap in
  ret (default ∅ (maps h !! m)).

(** [new(AtPeople)] *)
Definition newAtPeople : M loc :=
  let* h := get_heap in
  let p := fresh (dom (people h)) in
  put_heap (mkHeap (robots h) (maps h) (<[p := mkAtPeople [] [] false]> (people h)));;;
  ret p.

(** [*p] *)
Definition getPeople (p : loc) : M AtPeople :=
  let* h := get_heap in
  match people h !! p with
  | Some a => ret a
  | None => panic
  end.

(** [*p = a] *)
Definition setPeople (p : loc) (a : AtPeople) : M unit :=
  let* h := get_heap in
  match people h !! p with
  | Some _ => put_heap (mkHeap (robots h) (maps h) (<[p := a]> (people h)))
  | None => panic
  end.

(** [for _, x := range xs { f(x) }] *)
Fixpoint forEach {A} (xs : list A) (f : A -> M unit) : M unit :=
  match xs with
  | [] => ret tt
  | x :: rest => f x;;; forEach rest f
  end.

(* ===================================================================== *)
(** ** dding_talk.go: operations *)
(* ===================================================================== *)

(** [type SendMsgType func(r *Robot)] and
    [type AtOption func(people *AtPeople)] *)
Definition SendMsgType : Type := loc -> M unit.
Definition AtOption : Type := loc -> M unit.

(** [func NewRobot(accessToken, secret string) *Robot] *)
Definition NewRobot (w : World) (accessToken secret : string) : M loc :=
  match logInit w with
  | Some _ => panic
  | None =>
      let* d := makeMessage in
      let* a := newAtPeople in
      allocRobot (mkRobot accessToken secret d a)
  end.

(** [func (r Response) Error() string] *)
Definition Response_Error (r : Response) : string :=
  "dding talk response info: errcode=" +:+ Fmt.d (ErrCode r)
    +:+ ",errmsg=" +:+ ErrMsg r.

(** The method [Error()] of an [error] value. *)
Definition Error (e : error) : string :=
  match e with
  | LibError msg => msg
  | RespError resp => Response_Error resp
  end.

(** [func (r *Robot) buildQuery() string], given the reading of the
    clock. *)
Definition buildQuery_at (timestamp : Z) (x : Robot) : string :=
  let signature := Fmt.d timestamp +:+ String "010"%char (Secret x) in
  let hash := Hmac.Sum (bytes_of (Secret x)) (bytes_of signature) in
  let sign := Base64.encode hash in
  let webhook := Const.apiUrl +:+ AccessToken x in
  webhook +:+ "&timestamp=" +:+ Fmt.d timestamp +:+ "&sign=" +:+ sign.

Definition buildQuery (w : World) (r : loc) : M string :=
  let* x := getRobot r in
  ret (buildQuery_at (now w) x).

(** [func (at *AtPeople) serialize() map[string]interface{}], on the
    struct pointed to. *)
Definition serialize_of (a : AtPeople) : gmap string Value :=
  let ret0 : gmap string Value := ∅ in
  let ret1 := if Nat.ltb 0 (length (atMobiles a))
              then <[Const.atMobiles := VStrings (atMobiles a)]> ret0 else ret0 in
  let ret2 := if Nat.ltb 0 (length (atUserIds a))
              then <[Const.atUserIds := VStrings (atUserIds a)]> ret1 else ret1 in
  let ret3 := if isAtAll a
              then <[Const.atAll := VBool (isAtAll a)]> ret2 else ret2 in
  ret3.

Definition serialize (p : loc) : M (gmap string Value) :=
  let* a := getPeople p in
  ret (serialize_of a).

Definition zeroResponse : Response := mkResponse 0 EmptyString.

(** [func (r *Robot) send(msg map[string]interface{}) error]; [None] is
    the nil error. *)
Definition send (w : World) (r : loc) (msg : loc) : M (option error) :=
  let* url := buildQuery w r in
  let* x := getRobot r in
  let* ser := serialize (at_ x) in
  mapAssign msg Const.at_ (VMap ser);;;
  let* m := mapContents msg in
  match Marshal w m with
  | inr err =>
      emit (LogError "sonic serialization failed for data" (Some err));;;
      ret (Some err)
  | inl reqData =>
      emit (HttpPost url "application/json" reqData);;;
      let resp := Post w url "application/json" reqData in
      let* x := getRobot r in
      mapClear (data x);;;
      let* a := newAtPeople in
      setRobotAt r a;;;
      match resp with
      | inr err =>
          emit (LogError "dding talk api call failed" (Some err));;;
          ret (Some err)
      | inl resp =>
          emit ReadAll;;;
          match Body resp with
          | inr err =>
              emit (LogError "read dding talk response error" (Some err));;;
              ret (Some err)
          | inl respData =>
              let result := fst (Unmarshal w respData zeroResponse) in
              if negb (Z.eqb (ErrCode result) 0) then
                emit (LogError (Response_Error result) None);;;
                ret (Some (RespError result))
              else
                emit (LogInfo "message was successfully send to dding talk");;;
                ret None
          end
      end
  end.

(** [func (r *Robot) BuildMsgAndSend(smt SendMsgType, opts ...AtOption) error] *)
Definition BuildMsgAndSend (w : World) (r : loc)
    (smt : SendMsgType) (opts : list AtOption) : M (option error) :=
  smt r;;;
  forEach opts (fun opt => let* x := getRobot r in opt (at_ x));;;
  let* x := getRobot r in
  send w r (data x).

(** [func TextType(content string) SendMsgType] *)
Definition TextType (content : string) : SendMsgType := fun r =>
  let* x := getRobot r in
  mapAssign (data x) Const.msgType (VString Const.textType);;;
  let* x := getRobot r in
  mapAssign (data x) Const.textType (VStringMap {[ "content" := content ]}).

(** [func MarkDownType(title, text string) SendMsgType] *)
Definition MarkDownType (title text : string) : SendMsgType := fun r =>
  let* x := getRobot r in
  mapAssign (data x) Const.msgType (VString Const.markdownType);;;
  let* x := getRobot r in
  mapAssign (data x) Const.markdownType
    (VStringMap (<[ "title" := title ]> {[ "text" := text ]})).

(** [func WithAtMobiles(mobiles ...string) AtOption] *)
Definition WithAtMobiles (mobiles : list string) : AtOption := fun p =>
  let* a := getPeople p in
  setPeople p (mkAtPeople mobiles (atUserIds a) (isAtAll a)).

(** [func WithAtUserIds(userIds ...string) AtOption] *)
Definition WithAtUserIds (userIds : list string) : AtOption := fun p =>
  let* a := getPeople p in
  setPeople p (mkAtPeople (atMobiles a) userIds (isAtAll a)).

(** [func WithAtAll() AtOption] *)
Definition WithAtAll : AtOption := fun p =>
  let* a := getPeople p in
  setPeople p (mkAtPeople (atMobiles a) (atUserIds a) true).

(* ===================================================================== *)
(** ** Notions used in the statements *)
(* ===================================================================== *)

(** The pending message and the pending mention state of the robot at
    [r]: what its fields [data] and [at] refer to. *)
Definition pending_message (r : loc) (h : Heap) : option Message :=
  match robots h !! r with
  | Some x => maps h !! data x
  | None => None
  end.

Definition pending_mentions (r : loc) (h : Heap) : option AtPeople :=
  match robots h !! r with
  | Some x => people h !! at_ x
  | None => None
  end.

Definition zeroAtPeople : AtPeople := mkAtPeople [] [] false.

Definition emptyStore : Store := mkStore (mkHeap ∅ ∅ ∅) [].

Definition newline : string := String "010"%char EmptyString.

(** The signature of 4.4: base64 of HMAC-SHA256 keyed with the secret
    over the timestamp, a line feed and the secret. *)
Definition signature_of (T : Z) (secret : string) : string :=
  Base64.encode
    (Hmac.Sum (bytes_of secret) (bytes_of (Fmt.d T +:+ newline +:+ secret))).

(** The store after [*p = a] and after [m] has been given the contents
    [c]. *)
Definition store_people (p : loc) (a : AtPeople) (s : Store) : Store :=
  mkStore (mkHeap (robots (heap s)) (maps (heap s)) (<[p := a]> (people (heap s))))
          (trace s).

Definition store_map (m : loc) (c : Message) (s : Store) : Store :=
  mkStore (mkHeap (robots (heap s)) (<[m := c]> (maps (heap s))) (people (heap s)))
          (trace s).

(** Apply the options to the struct at [p], in order, as the loop of
    [BuildMsgAndSend] does, and serialize the result. *)
Definition with_options (opts : list AtOption) (p : loc) : M (gmap string Value) :=
  forEach opts (fun opt => opt p);;;
  serialize p.

(** The pending message once the serialized mention state has been stored
    under the key [at]. *)
Definition merged (m : Message) (a : AtPeople) : Message :=
  <[Const.at_ := VMap (serialize_of a)]> m.

(** The heap after [clear(r.data)] and [r.at = new(AtPeople)]. *)
Definition reset_heap (r : loc) (x : Robot) (h : Heap) : Heap :=
  let p := fresh (dom (people h)) in
  mkHeap (<[r := mkRobot (AccessToken x) (Secret x) (data x) p]> (robots h))
         (<[data x := ∅]> (maps h))
         (<[p := zeroAtPeople]> (people h)).

(** What [send] does with the answer to the POST, the statements after
    the reset: the error returned and the calls made. *)
Definition handle_answer (w : World) (resp : HttpResponse + error)
    : option error * list Event :=
  match resp with
  | inr err => (Some err, [LogError "dding talk api call failed" (Some err)])
  | inl (mkHttpResponse (inr err)) =>
      (Some err, [ReadAll; LogError "read dding talk response error" (Some err)])
  | inl (mkHttpResponse (inl respData)) =>
      let result := fst (Unmarshal w respData zeroResponse) in
      if negb (Z.eqb (ErrCode result) 0)
      then (Some (RespError result),
            [ReadAll; LogError (Response_Error result) None])
      else (None,
            [ReadAll; LogInfo "message was successfully send to dding talk"])
  end.

(** The store at the end of a [send] that posted [reqData] and made the
    calls [evs] afterwards. *)
Definition after_send (w : World) (r : loc) (x : Robot) (m : Message)
    (a : AtPeople) (reqData : list byte) (evs : list Event) (s : Store) : Store :=
  mkStore (reset_heap r x (heap s))
    (trace s ++ (HttpPost (buildQuery_at (now w) x) "application/json" reqData,
                 heap (store_map (data x) (merged m a) s))
       :: map (fun e => (e, reset_heap r x (heap s))) evs).

(** [sub] occurs in [str]. *)
Definition contains (sub str : string) : Prop :=
  exists pre post : string, str = pre +:+ sub +:+ post.

(** The options the package provides, by name, with their effect on the
    struct. *)
Inductive Choice :=
| Mobiles (l : list string)
| UserIds (l : list string)
| All.

Definition option_of (c : Choice) : AtOption :=
  match c with
  | Mobiles l => WithAtMobiles l
  | UserIds l => WithAtUserIds l
  | All => WithAtAll
  end.

Definition choose (c : Choice) (a : AtPeople) : AtPeople :=
  match c with
  | Mobiles l => mkAtPeople l (atUserIds a) (isAtAll a)
  | UserIds l => mkAtPeople (atMobiles a) l (isAtAll a)
  | All => mkAtPeople (atMobiles a) (atUserIds a) true
  end.

(** The mention state after the options [cs], applied from left to
    right. *)
Definition chosen (cs : list Choice) (a : AtPeople) : AtPeople :=
  fold_left (fun b c => choose c b) cs a.

Definition is_mobiles (c : Choice) : bool :=
  match c with Mobiles _ => true | _ => false end.
Definition is_userIds (c : Choice) : bool :=
  match c with UserIds _ => true | _ => false end.
Definition is_all (c : Choice) : bool :=
  match c with All => true | _ => false end.

(** The text payload written over a pending message [c]. *)
Definition text_over (content : string) (c : Message) : Message :=
  <[Const.textType := VStringMap {[ "content" := content ]}]>
    (<[Const.msgType := VString Const.textType]> c).

(** The calls a computation makes, without the heaps they were recorded
    with. *)
Definition events {A} (c : M A) (s : Store) : option (A * list Event) :=
  match c s with
  | Some (a, s') => Some (a, map fst (trace s'))
  | None => None
  end.

(** The robot at [r] can be used: the map and the mention struct its
    fields refer to exist (neither is nil). *)
Definition usable (r : loc) (h : Heap) : Prop :=
  exists x, robots h !! r = Some x
            /\ is_Some (maps h !! data x)
            /\ is_Some (people h !! at_ x).

(** The two builders of the package, by name, and the entries they write
    over a pending message. *)
Inductive Kind :=
| Text (content : string)
| MarkDown (title text : string).

Definition builder_of (k : Kind) : SendMsgType :=
  match k with
  | Text content => TextType content
  | MarkDown title text => MarkDownType title text
  end.

Definition markdown_over (title text : string) (c : Message) : Message :=
  <[Const.markdownType := VStringMap (<[ "title" := title ]> {[ "text" := text ]})]>
    (<[Const.msgType := VString Const.markdownType]> c).

Definition payload_over (k : Kind) (c : Message) : Message :=
  match k with
  | Text content => text_over content c
  | MarkDown title text => markdown_over title text c
  end.

(** The store at the end of a [send] whose message the encoder
    rejected. *)
Definition after_failed_send (x : Robot) (m : Message) (a : AtPeople)
    (err : error) (s : Store) : Store :=
  mkStore (heap (store_map (data x) (merged m a) s))
    (trace s ++ [(LogError "sonic serialization failed for data" (Some err),
                  heap (store_map (data x) (merged m a) s))]).

(** The result and the final store of [send] on a usable robot. *)
Definition send_outcome (w : World) (r : loc) (x : Robot) (m : Message)
    (a : AtPeople) (s : Store) : option error * Store :=
  match Marshal w (merged m a) with
  | inr err => (Some err, after_failed_send x m a err s)
  | inl reqData =>
      let answer :=
        handle_answer w
          (Post w (buildQuery_at (now w) x) "application/json" reqData) in
      (answer.1, after_send w r x m a reqData answer.2 s)
  end.

(** The calls recorded in [s'] since [s]. *)
Definition calls_since (s s' : Store) : list Event :=
  map fst (drop (length (trace s)) (trace s')).

Definition is_log (e : Event) : bool :=
  match e with LogError _ _ | LogInfo _ => true | _ => false end.
Definition is_info (e : Event) : bool :=
  match e with LogInfo _ => true | _ => false end.
Definition is_post (e : Event) : bool :=
  match e with HttpPost _ _ _ => true | _ => false end.

(** The field of the mention struct an option writes. *)
Definition field_of (c : Choice) : nat :=
  match c with Mobiles _ => 0 | UserIds _ => 1 | All => 2 end.

(** A character of the standard base64 alphabet, or the padding. *)
Definition base64_char (c : ascii) : Prop :=
  In c (list_ascii_of_string Base64.encodeStd) \/ c = Base64.padChar.

(** The world [w] with another encoder. *)
Definition with_Marshal (f : Message -> list byte + error) (w : World) : World :=
  mkWorld (now w) (logInit w) f (Post w) (Unmarshal w).

(** The world [w] with another decoder. *)
Definition with_Unmarshal (f : list byte -> Response -> Response * option error)
    (w : World) : World :=
  mkWorld (now w) (logInit w) (Marshal w) (Post w) f.

(** The name of a message kind and the value stored under it. *)
Definition kind_name (k : Kind) : string :=
  match k with
  | Text _ => Const.textType
  | MarkDown _ _ => Const.markdownType
  end.

Definition payload_of (k : Kind) : Value :=
  match k with
  | Text content => VStringMap {[ "content" := content ]}
  | MarkDown title text => VStringMap (<[ "title" := title ]> {[ "text" := text ]})
  end.

(** An option that acts on the struct it is given as the function [f],
    and does nothing else. *)
Definition acts_as (opt : AtOption) (f : AtPeople -> AtPeople) : Prop :=
  forall (p : loc) (s : Store) (b : AtPeople),
    people (heap s) !! p = Some b ->
    opt p s = Some (tt, store_people p (f b) s).

(** [applied_in_order r opts s s']: starting in [s], each option of
    [opts] has been called once, from left to right, on the mention
    struct the robot at [r] refers to at that moment, and has returned;
    [s'] is the store after the last one. *)
Inductive applied_in_order (r : loc) : list AtOption -> Store -> Store -> Prop :=
| applied_nil (s : Store) : applied_in_order r [] s s
| applied_cons (opt : AtOption) (opts : list AtOption) (s s1 s2 : Store)
    (x : Robot) :
    robots (heap s) !! r = Some x ->
    opt (at_ x) s = Some (tt, s1) ->
    applied_in_order r opts s1 s2 ->
    applied_in_order r (opt :: opts) s s2.

(* ===================================================================== *)
(** ** A sample outside world *)
(* ===================================================================== *)

(** Digests in hexadecimal, as test vectors are printed. *)
Module Hex.
Definition digit (n : N) : ascii :=
  match String.get (N.to_nat n) "0123456789abcdef" with
  | Some c => c
  | None => "?"%char
  end.
Fixpoint encode (bs : list byte) : string :=
  match bs with
  | [] => EmptyString
  | b :: rest =>
      String (digit (Byte.to_N b / 16))
        (String (digit (Byte.to_N b mod 16)) (encode rest))
  end.
End Hex.

(** A plain JSON encoder, used as the [Marshal] of the sample worlds: it
    rejects [VChan], as JSON encoders reject channel values. *)
Module Json.

Definition dquote : string := String (ascii_of_nat 34) EmptyString.
Definition quote (s : string) : string := dquote +:+ s +:+ dquote.

Fixpoint commas (xs : list string) : string :=
  match xs with
  | [] => EmptyString
  | [x] => x
  | x :: rest => x +:+ "," +:+ commas rest
  end.

Definition member (kv : string * string) : string :=
  quote kv.1 +:+ ":" +:+ kv.2.

Definition object (kvs : list (string * string)) : string :=
  "{" +:+ commas (map member kvs) +:+ "}".

Fixpoint value (v : Value) : option string :=
  match v with
  | VString s => Some (quote s)
  | VBool b => Some (if b then "true" else "false")
  | VStrings l => Some ("[" +:+ commas (map quote l) +:+ "]")
  | VStringMap m => Some (object (map_to_list (quote <$> m)))
  | VMap m =>
      let enc := value <$> m in
      if decide (map_Forall (fun _ o => is_Some o) enc)
      then Some (object (map_to_list (default EmptyString <$> enc)))
      else None
  | VChan => None
  end.

Definition marshal (m : Message) : list byte + error :=
  match value (VMap m) with
  | Some js => inl (bytes_of js)
  | None => inr (LibError "json: unsupported type: chan int")
  end.

End Json.

(** A world with a given clock reading, the encoder above, a canned
    answer to the POST and a canned decoding of the response body. *)
Definition sampleWorld (T : Z) (reply : HttpResponse + error)
    (decoded : Response * option error) : World :=
  mkWorld T None Json.marshal (fun _ _ _ => reply) (fun _ _ => decoded).

Definition okReply : HttpResponse + error :=
  inl (mkHttpResponse (inl (bytes_of "{}"))).

(** A store holding one robot, as [NewRobot] leaves it. *)
Definition sampleStore : Store :=
  mkStore (mkHeap {[ 1%positive := mkRobot "TOK" "SEC000000" 1 1 ]}
                  {[ 1%positive := ∅ ]}
                  {[ 1%positive := zeroAtPeople ]}) [].

Definition sampleRobot : Robot := mkRobot "TOK" "SEC000000" 1 1.

Definition sampleText : Message :=
  {[ "msgtype" := VString "text";
     "text" := VStringMap {[ "content" := "hello" ]} ]}.

(** A call with a text message and three options, two of them for the
    mobile numbers. *)
Definition sampleChoices : list Choice := [Mobiles ["111"]; All; Mobiles ["222"; "333"]].

(** The store after the text builder ran on the sample robot. *)
Definition textStore : Store := store_map 1%positive sampleText sampleStore.

Definition textRequest : list byte :=
  match Json.marshal (merged sampleText zeroAtPeople) with
  | inl b => b
  | inr _ => []
  end.

Definition okWorld : World :=
  sampleWorld 1700000000001 okReply (zeroResponse, None).

(** The remote side answers with error code 300001. *)
Definition refusedWorld : World :=
  sampleWorld 1700000000001 okReply
    (mkResponse 300001 "token is not exist", None).

(** A response body whose [ErrMsg] is a number: a decoder stores the code
    and then reports the mismatch on the second field. *)
Definition mismatchBody : list byte :=
  bytes_of ("{" +:+ Json.quote "ErrCode" +:+ ":300001,"
                +:+ Json.quote "ErrMsg" +:+ ":0}").

Definition mismatchWorld : World :=
  sampleWorld 1700000000001 (inl (mkHttpResponse (inl mismatchBody)))
    (mkResponse 300001 EmptyString,
     Some (LibError "Mismatch type string with value number")).

(** A body that is not JSON at all: the decoder fails before it stores
    anything. *)
Definition garbageWorld : World :=
  sampleWorld 1700000000001
    (inl (mkHttpResponse (inl (bytes_of "<html>Bad Gateway</html>"))))
    (zeroResponse, Some (LibError "Syntax error at index 0: invalid char")).

(** A builder written by a caller inside the package: it stores a channel
    value, which the encoder rejects. *)
Definition ChanType : SendMsgType := fun r =>
  let* x := getRobot r in
  mapAssign (data x) "ch" VChan.

Definition chanStore : Store := store_map 1%positive {[ "ch" := VChan ]} sampleStore.

Definition marshalError : error := LibError "json: unsupported type: chan int".

Definition signedUrl : string :=
  "https://oapi.dingtalk.com/robot/send?access_token=TOK&timestamp=1700000000001&sign=eFeF/BembbD+A7pRNwtVB0N9k8LrDaFxTU7hd5UsWNk=".

(** A world whose POST fails, and one whose response body cannot be
    read. *)
Definition downWorld : World :=
  sampleWorld 1700000000001 (inr (LibError "dial tcp: connection refused"))
    (zeroResponse, None).

Definition cutWorld : World :=
  sampleWorld 1700000000001
    (inl (mkHttpResponse (inr (LibError "unexpected EOF"))))
    (zeroResponse, None).

(** A store with a robot whose map and mention struct are nil, as the
    literal [Robot{AccessToken: ..., Secret: ...}] gives. *)
Definition bareStore : Store :=
  mkStore (mkHeap {[ 1%positive := mkRobot "TOK" "SEC000000" 1 1 ]} ∅ ∅) [].

(** The sample store after a second robot has been made. *)
Definition twoStore : Store :=
  match NewRobot okWorld "TOK2" "SEC2" sampleStore with
  | Some (_, s) => s
  | None => sampleStore
  end.

Definition secondRobot : Robot := mkRobot "TOK2" "SEC2" 2 2.

(** An option written inside the package: it flips the mention-all
    flag. *)
Definition ToggleAll : AtOption := fun p =>
  let* a := getPeople p in
  setPeople p (mkAtPeople (atMobiles a) (atUserIds a) (negb (isAtAll a))).

(** A builder written inside the package: it stores a string under the
    key [at]. *)
Definition AtType : SendMsgType := fun r =>
  let* x := getRobot r in
  mapAssign (data x) "at" (VString "mine").

Definition atStore : Store :=
  store_map 1%positive {[ "at" := VString "mine" ]} sampleStore.

Definition atRequest : list byte :=
  bytes_of ("{" +:+ Json.quote "at" +:+ ":{" +:+ Json.quote "isAtAll" +:+ ":true}}").

(* ===================================================================== *)
(** ** The library routines on known inputs *)
(* ===================================================================== *)

Example fmt_d_examples :
  Fmt.d 0 = "0" /\ Fmt.d 300001 = "300001" /\ Fmt.d (-15) = "-15".
Proof. repeat split; reflexivity. Qed.

(** RFC 4648, section 10. *)
Example base64_rfc4648 :
  Base64.encode (bytes_of "foobar") = "Zm9vYmFy" /\
  Base64.encode (bytes_of "fooba") = "Zm9vYmE=" /\
  Base64.encode (bytes_of "foob") = "Zm9vYg==" /\
  Base64.encode [] = EmptyString.
Proof. repeat split; reflexivity. Qed.

Example sha256_constants :
  nth 0 Sha256.K 0%Z = 0x428a2f98%Z /\ nth 63 Sha256.K 0%Z = 0xc67178f2%Z /\
  length Sha256.K = 64%nat /\
  Sha256.h0 Sha256.init = 0x6a09e667%Z /\ Sha256.h7 Sha256.init = 0x5be0cd19%Z.
Proof. repeat split; reflexivity. Qed.

(** FIPS 180-4, the one-block message. *)
Example sha256_abc :
  Hex.encode (Sha256.Sum256 (bytes_of "abc")) =
  "ba7816bf8f01cfea414140de5dae2223b00361a396177a9cb410ff61f20015ad".
Proof. vm_compute. reflexivity. Qed.

(** RFC 4231, test case 2. *)
Example hmac_rfc4231_2 :
  Hex.encode (Hmac.Sum (bytes_of "Jefe") (bytes_of "what do ya want for nothing?")) =
  "5bdcc146bf60754e6a042426089575c75a003f089d2739839dec58b964ec3843".
Proof. vm_compute. reflexivity. Qed.

Lemma append_assoc (a b c : string) : (a +:+ b) +:+ c = a +:+ b +:+ c.
Proof.
  induction a as [|ch a IH]; [reflexivity|].
  change (String ch ((a +:+ b) +:+ c) = String ch (a +:+ b +:+ c)).
  now rewrite IH.
Qed.

Lemma sum256_length (bs : list byte) : length (Sha256.Sum256 bs) = 32%nat.
Proof.
  unfold Sha256.Sum256, Sha256.sum256Z.
  rewrite length_map.
  generalize (fold_left Sha256.block
    (Sha256.chunks (length (Sha256.words (Sha256.pad (map Sha256.byteZ bs))))
       (Sha256.words (Sha256.pad (map Sha256.byteZ bs)))) Sha256.init).
  intros dg. reflexivity.
Qed.

Lemma hmac_length (key msg : list byte) : length (Hmac.Sum key msg) = 32%nat.
Proof. unfold Hmac.Sum. apply sum256_length. Qed.

(** A 32-byte digest encodes to 44 characters, the last one being the
    padding character. *)
Lemma base64_digest (bs : list byte) :
  length bs = 32%nat ->
  String.length (Base64.encode bs) = 44%nat /\
  String.get 43 (Base64.encode bs) = Some "="%char.
Proof.
  intros Hlen.
  do 32 (destruct bs as [|? bs]; [discriminate Hlen|]).
  destruct bs; [|discriminate Hlen].
  split; reflexivity.
Qed.

Example NewRobot_sample :
  NewRobot (sampleWorld 0 okReply (zeroResponse, None)) "TOK" "SEC000000" emptyStore
  = Some (1%positive, sampleStore).
Proof. vm_compute. reflexivity. Qed.

(* ===================================================================== *)
(** ** Running the computations *)
(* ===================================================================== *)

Lemma bind_run {A B} (c : M A) (k : A -> M B) (s s' : Store) (a : A) :
  c s = Some (a, s') -> bind c k s = k a s'.
Proof. intros H. unfold bind. now rewrite H. Qed.

(** Run the first computation of a sequence with a lemma about it. *)
Tactic Notation "step" open_constr(H) :=
  erewrite (bind_run _ _ _ _ _ H); cbv beta.

Lemma getRobot_run (r : loc) (s : Store) (x : Robot) :
  robots (heap s) !! r = Some x -> getRobot r s = Some (x, s).
Proof. intros H. unfold getRobot, bind, get_heap. now rewrite H. Qed.

Lemma getPeople_run (p : loc) (s : Store) (a : AtPeople) :
  people (heap s) !! p = Some a -> getPeople p s = Some (a, s).
Proof. intros H. unfold getPeople, bind, get_heap. now rewrite H. Qed.

Lemma setPeople_run (p : loc) (s : Store) (a b : AtPeople) :
  people (heap s) !! p = Some a -> setPeople p b s = Some (tt, store_people p b s).
Proof. intros H. unfold setPeople, bind, get_heap. now rewrite H. Qed.

Lemma mapAssign_run (m : loc) (k : string) (v : Value) (s : Store) (c : Message) :
  maps (heap s) !! m = Some c ->
  mapAssign m k v s = Some (tt, store_map m (<[k := v]> c) s).
Proof. intros H. unfold mapAssign, bind, get_heap. now rewrite H. Qed.

Lemma serialize_run (p : loc) (s : Store) (a : AtPeople) :
  people (heap s) !! p = Some a -> serialize p s = Some (serialize_of a, s).
Proof.
  intros H. unfold serialize. now rewrite (bind_run _ _ _ _ _ (getPeople_run _ _ _ H)).
Qed.

Lemma store_map_twice (m : loc) (c c' : Message) (s : Store) :
  store_map m c' (store_map m c s) = store_map m c' s.
Proof. unfold store_map. simpl. now rewrite insert_insert_eq. Qed.

Lemma store_people_twice (p : loc) (a a' : AtPeople) (s : Store) :
  store_people p a' (store_people p a s) = store_people p a' s.
Proof. unfold store_people. simpl. now rewrite insert_insert_eq. Qed.

Lemma store_people_lookup (p : loc) (a : AtPeople) (s : Store) :
  people (heap (store_people p a s)) !! p = Some a.
Proof. apply lookup_insert_eq. Qed.

Lemma store_map_lookup (m : loc) (c : Message) (s : Store) :
  maps (heap (store_map m c s)) !! m = Some c.
Proof. apply lookup_insert_eq. Qed.

(** The three options on the struct they are given. *)
Lemma WithAtMobiles_run (l : list string) (p : loc) (s : Store) (a : AtPeople) :
  people (heap s) !! p = Some a ->
  WithAtMobiles l p s =
    Some (tt, store_people p (mkAtPeople l (atUserIds a) (isAtAll a)) s).
Proof.
  intros H. unfold WithAtMobiles.
  rewrite (bind_run _ _ _ _ _ (getPeople_run _ _ _ H)).
  now apply setPeople_run with a.
Qed.

Lemma WithAtUserIds_run (l : list string) (p : loc) (s : Store) (a : AtPeople) :
  people (heap s) !! p = Some a ->
  WithAtUserIds l p s =
    Some (tt, store_people p (mkAtPeople (atMobiles a) l (isAtAll a)) s).
Proof.
  intros H. unfold WithAtUserIds.
  rewrite (bind_run _ _ _ _ _ (getPeople_run _ _ _ H)).
  now apply setPeople_run with a.
Qed.

Lemma WithAtAll_run (p : loc) (s : Store) (a : AtPeople) :
  people (heap s) !! p = Some a ->
  WithAtAll p s =
    Some (tt, store_people p (mkAtPeople (atMobiles a) (atUserIds a) true) s).
Proof.
  intros H. unfold WithAtAll.
  rewrite (bind_run _ _ _ _ _ (getPeople_run _ _ _ H)).
  now apply setPeople_run with a.
Qed.

(** The two builders on a robot whose pending message is [c]. *)
Lemma TextType_run (content : string) (r : loc) (s : Store) (x : Robot) (c : Message) :
  robots (heap s) !! r = Some x ->
  maps (heap s) !! data x = Some c ->
  TextType content r s =
    Some (tt, store_map (data x)
                (<[Const.textType := VStringMap {[ "content" := content ]}]>
                   (<[Const.msgType := VString Const.textType]> c)) s).
Proof.
  intros Hr Hm. unfold TextType.
  step (getRobot_run _ _ _ Hr).
  step (mapAssign_run _ _ _ _ _ Hm).
  step (getRobot_run r (store_map (data x) _ s) x Hr).
  rewrite (mapAssign_run _ _ _ _ _ (store_map_lookup _ _ _)).
  now rewrite store_map_twice.
Qed.

Lemma MarkDownType_run (title text : string) (r : loc) (s : Store) (x : Robot) (c : Message) :
  robots (heap s) !! r = Some x ->
  maps (heap s) !! data x = Some c ->
  MarkDownType title text r s =
    Some (tt, store_map (data x)
                (<[Const.markdownType :=
                     VStringMap (<[ "title" := title ]> {[ "text" := text ]})]>
                   (<[Const.msgType := VString Const.markdownType]> c)) s).
Proof.
  intros Hr Hm. unfold MarkDownType.
  step (getRobot_run _ _ _ Hr).
  step (mapAssign_run _ _ _ _ _ Hm).
  step (getRobot_run r (store_map (data x) _ s) x Hr).
  rewrite (mapAssign_run _ _ _ _ _ (store_map_lookup _ _ _)).
  now rewrite store_map_twice.
Qed.

Lemma buildQuery_run (w : World) (r : loc) (s : Store) (x : Robot) :
  robots (heap s) !! r = Some x ->
  buildQuery w r s = Some (buildQuery_at (now w) x, s).
Proof. intros H. unfold buildQuery. now step (getRobot_run _ _ _ H). Qed.

Lemma mapContents_run (m : loc) (s : Store) (c : Message) :
  maps (heap s) !! m = Some c -> mapContents m s = Some (c, s).
Proof. intros H. unfold mapContents, bind, get_heap, ret. now rewrite H. Qed.

Lemma mapClear_run (m : loc) (s : Store) (c : Message) :
  maps (heap s) !! m = Some c -> mapClear m s = Some (tt, store_map m ∅ s).
Proof. intros H. unfold mapClear, bind, get_heap. now rewrite H. Qed.

Lemma emit_run (e : Event) (s : Store) :
  emit e s = Some (tt, mkStore (heap s) (trace s ++ [(e, heap s)])).
Proof. reflexivity. Qed.

Lemma newAtPeople_run (s : Store) :
  newAtPeople s =
    Some (fresh (dom (people (heap s))),
          store_people (fresh (dom (people (heap s)))) zeroAtPeople s).
Proof. reflexivity. Qed.

Lemma setRobotAt_run (r p : loc) (s : Store) (x : Robot) :
  robots (heap s) !! r = Some x ->
  setRobotAt r p s =
    Some (tt, mkStore
      (mkHeap (<[r := mkRobot (AccessToken x) (Secret x) (data x) p]> (robots (heap s)))
              (maps (heap s)) (people (heap s)))
      (trace s)).
Proof. intros H. unfold setRobotAt, bind, get_heap. now rewrite H. Qed.

(** Run the first computation of a sequence, looking its operands up in
    the store. *)
Ltac run_prim :=
  first [ eapply buildQuery_run | eapply getRobot_run | eapply serialize_run
        | eapply mapAssign_run | eapply mapContents_run | eapply mapClear_run
        | eapply emit_run | eapply newAtPeople_run | eapply setRobotAt_run
        | eapply getPeople_run | eapply setPeople_run ];
  simpl; rewrite ?lookup_insert_eq; eauto.

Ltac run1 := erewrite bind_run; [ | solve [run_prim] ]; cbv beta.

Lemma send_marshal_failure (w : World) (r : loc) (s : Store) (x : Robot)
    (m : Message) (a : AtPeople) (err : error) :
  robots (heap s) !! r = Some x ->
  maps (heap s) !! data x = Some m ->
  people (heap s) !! at_ x = Some a ->
  Marshal w (merged m a) = inr err ->
  send w r (data x) s =
    Some (Some err,
          mkStore (heap (store_map (data x) (merged m a) s))
            (trace s ++ [(LogError "sonic serialization failed for data" (Some err),
                          heap (store_map (data x) (merged m a) s))])).
Proof.
  intros Hr Hm Ha HM. unfold send.
  do 5 run1.
  fold (merged m a). rewrite HM.
  reflexivity.
Qed.

Lemma send_posted (w : World) (r : loc) (s : Store) (x : Robot)
    (m : Message) (a : AtPeople) (reqData : list byte) :
  robots (heap s) !! r = Some x ->
  maps (heap s) !! data x = Some m ->
  people (heap s) !! at_ x = Some a ->
  Marshal w (merged m a) = inl reqData ->
  let url := buildQuery_at (now w) x in
  let answer := handle_answer w (Post w url "application/json" reqData) in
  send w r (data x) s =
    Some (answer.1, after_send w r x m a reqData answer.2 s).
Proof.
  intros Hr Hm Ha HM url answer. unfold send.
  do 5 run1.
  fold (merged m a). rewrite HM.
  do 5 run1.
  cbn [heap trace robots maps people store_map store_people].
  rewrite insert_insert_eq.
  change (mkHeap _ _ _) with (reset_heap r x (heap s)) at 1.
  subst answer url. unfold handle_answer, after_send.
  destruct (Post w (buildQuery_at (now w) x) "application/json" reqData)
    as [[[respData|err]]|err].
  - run1. cbn [heap trace Body].
    destruct (negb (ErrCode (Unmarshal w respData zeroResponse).1 =? 0)%Z).
    + run1. unfold ret. cbn [heap trace fst snd map]. now rewrite <- !app_assoc.
    + run1. unfold ret. cbn [heap trace fst snd map]. now rewrite <- !app_assoc.
  - run1. cbn [Body]. run1. unfold ret. cbn [heap trace fst snd map].
    now rewrite <- !app_assoc.
  - run1. unfold ret. cbn [heap trace fst snd map]. now rewrite <- !app_assoc.
Qed.

Lemma option_of_run (c : Choice) (p : loc) (s : Store) (a : AtPeople) :
  people (heap s) !! p = Some a ->
  option_of c p s = Some (tt, store_people p (choose c a) s).
Proof.
  intros H. destruct c; simpl.
  - now apply WithAtMobiles_run.
  - now apply WithAtUserIds_run.
  - now apply WithAtAll_run.
Qed.

Lemma store_people_id (p : loc) (a : AtPeople) (s : Store) :
  people (heap s) !! p = Some a -> store_people p a s = s.
Proof.
  intros H. destruct s as [[R Mp P] T]. unfold store_people. simpl in *.
  now rewrite insert_id.
Qed.

Lemma options_loop_run (cs : list Choice) (r : loc) (x : Robot) :
  forall (s : Store) (a : AtPeople),
    robots (heap s) !! r = Some x ->
    people (heap s) !! at_ x = Some a ->
    forEach (map option_of cs) (fun opt => let* y := getRobot r in opt (at_ y)) s =
      Some (tt, store_people (at_ x) (chosen cs a) s).
Proof.
  induction cs as [|c cs IH]; intros s a Hr Ha; simpl.
  - unfold ret. now rewrite store_people_id.
  - erewrite bind_run.
    2:{ erewrite bind_run by (apply getRobot_run; exact Hr).
        cbv beta. eapply option_of_run. exact Ha. }
    cbv beta. rewrite (IH _ (choose c a)).
    + now rewrite store_people_twice.
    + exact Hr.
    + apply store_people_lookup.
Qed.

Lemma BuildMsgAndSend_run (w : World) (r : loc) (smt : SendMsgType)
    (cs : list Choice) (s s1 : Store) (x : Robot) (a : AtPeople) :
  smt r s = Some (tt, s1) ->
  robots (heap s1) !! r = Some x ->
  people (heap s1) !! at_ x = Some a ->
  BuildMsgAndSend w r smt (map option_of cs) s =
    send w r (data x) (store_people (at_ x) (chosen cs a) s1).
Proof.
  intros Hsmt Hr Ha. unfold BuildMsgAndSend.
  erewrite bind_run by exact Hsmt. cbv beta.
  erewrite bind_run by (eapply options_loop_run; [exact Hr | exact Ha]).
  cbv beta.
  erewrite bind_run by (apply getRobot_run; exact Hr).
  reflexivity.
Qed.

(** Last write wins, field by field. *)
Lemma options_loop_general (r : loc) (opts : list AtOption) (s s' : Store) :
  applied_in_order r opts s s' ->
  forEach opts (fun opt => let* y := getRobot r in opt (at_ y)) s = Some (tt, s').
Proof.
  induction 1 as [s|opt opts s s1 s2 x Hr Hopt Hrest IH]; [reflexivity|].
  cbn [forEach].
  erewrite bind_run.
  2:{ erewrite bind_run by (apply getRobot_run; exact Hr). cbv beta. exact Hopt. }
  cbv beta. exact IH.
Qed.

Lemma applied_in_order_pure (r : loc) (x : Robot) (opts : list AtOption)
    (fs : list (AtPeople -> AtPeople)) :
  Forall2 acts_as opts fs ->
  forall (s : Store) (a : AtPeople),
    robots (heap s) !! r = Some x ->
    people (heap s) !! at_ x = Some a ->
    applied_in_order r opts s
      (store_people (at_ x) (fold_left (fun b f => f b) fs a) s).
Proof.
  induction 1 as [|opt f opts fs Hact Hrest IH]; intros s a Hr Ha.
  - cbn [fold_left]. rewrite store_people_id by exact Ha. constructor.
  - cbn [fold_left].
    apply (applied_cons r opt opts s (store_people (at_ x) (f a) s) _ x Hr
             (Hact (at_ x) s a Ha)).
    rewrite <- (store_people_twice (at_ x) (f a)
                  (fold_left (fun b g => g b) fs (f a)) s).
    apply IH; [exact Hr | apply store_people_lookup].
Qed.

Lemma BuildMsgAndSend_general (w : World) (r : loc) (smt : SendMsgType)
    (opts : list AtOption) (s s1 s2 : Store) (x2 : Robot) :
  smt r s = Some (tt, s1) ->
  applied_in_order r opts s1 s2 ->
  robots (heap s2) !! r = Some x2 ->
  BuildMsgAndSend w r smt opts s = send w r (data x2) s2.
Proof.
  intros Hsmt Hopts Hr2. unfold BuildMsgAndSend.
  erewrite bind_run by exact Hsmt. cbv beta.
  erewrite bind_run by (apply options_loop_general; exact Hopts). cbv beta.
  erewrite bind_run by (apply getRobot_run; exact Hr2).
  reflexivity.
Qed.

Lemma WithAtMobiles_acts (l : list string) :
  acts_as (WithAtMobiles l) (fun b => mkAtPeople l (atUserIds b) (isAtAll b)).
Proof. intros p s b Hb. now apply WithAtMobiles_run. Qed.

Lemma ToggleAll_acts :
  acts_as ToggleAll
    (fun b => mkAtPeople (atMobiles b) (atUserIds b) (negb (isAtAll b))).
Proof.
  intros p s b Hb. unfold ToggleAll.
  erewrite bind_run by (apply getPeople_run; exact Hb). cbv beta.
  now apply setPeople_run with b.
Qed.

Lemma chosen_app (cs1 cs2 : list Choice) (a : AtPeople) :
  chosen (cs1 ++ cs2) a = chosen cs2 (chosen cs1 a).
Proof. unfold chosen. apply fold_left_app. Qed.

Lemma chosen_mobiles_none (cs : list Choice) :
  forall a, forallb (fun c => negb (is_mobiles c)) cs = true ->
            atMobiles (chosen cs a) = atMobiles a.
Proof.
  induction cs as [|c cs IH]; intros a H; simpl in *; [reflexivity|].
  apply andb_prop in H as [Hc Hcs]. unfold chosen in *. simpl.
  rewrite IH by exact Hcs. now destruct c.
Qed.

Lemma chosen_userIds_none (cs : list Choice) :
  forall a, forallb (fun c => negb (is_userIds c)) cs = true ->
            atUserIds (chosen cs a) = atUserIds a.
Proof.
  induction cs as [|c cs IH]; intros a H; simpl in *; [reflexivity|].
  apply andb_prop in H as [Hc Hcs]. unfold chosen in *. simpl.
  rewrite IH by exact Hcs. now destruct c.
Qed.

Lemma chosen_all (cs : list Choice) :
  forall a, isAtAll (chosen cs a) = isAtAll a || existsb is_all cs.
Proof.
  induction cs as [|c cs IH]; intros a; simpl.
  - now rewrite orb_false_r.
  - unfold chosen in *. simpl. rewrite IH.
    destruct c; simpl; try reflexivity. now rewrite orb_true_r.
Qed.

Lemma chosen_mobiles_last (pre post : list Choice) (l : list string) (a : AtPeople) :
  forallb (fun c => negb (is_mobiles c)) post = true ->
  atMobiles (chosen (pre ++ Mobiles l :: post) a) = l.
Proof.
  intros H. rewrite chosen_app.
  change (Mobiles l :: post) with ([Mobiles l] ++ post).
  rewrite chosen_app. now rewrite chosen_mobiles_none.
Qed.

Lemma chosen_userIds_last (pre post : list Choice) (l : list string) (a : AtPeople) :
  forallb (fun c => negb (is_userIds c)) post = true ->
  atUserIds (chosen (pre ++ UserIds l :: post) a) = l.
Proof.
  intros H. rewrite chosen_app.
  change (UserIds l :: post) with ([UserIds l] ++ post).
  rewrite chosen_app. now rewrite chosen_userIds_none.
Qed.

Lemma pending_message_reset (r : loc) (x : Robot) (h : Heap) :
  pending_message r (reset_heap r x h) = Some ∅.
Proof.
  unfold pending_message, reset_heap. simpl.
  rewrite lookup_insert_eq. simpl. apply lookup_insert_eq.
Qed.

Lemma pending_mentions_reset (r : loc) (x : Robot) (h : Heap) :
  pending_mentions r (reset_heap r x h) = Some zeroAtPeople.
Proof.
  unfold pending_mentions, reset_heap. simpl.
  rewrite lookup_insert_eq. simpl. apply lookup_insert_eq.
Qed.

Lemma reset_heap_fresh (r : loc) (x : Robot) (h : Heap) :
  exists x', robots (reset_heap r x h) !! r = Some x'
             /\ data x' = data x
             /\ AccessToken x' = AccessToken x
             /\ Secret x' = Secret x
             /\ people h !! at_ x' = None.
Proof.
  eexists. split; [apply lookup_insert_eq|]. simpl.
  repeat split. apply not_elem_of_dom, is_fresh.
Qed.

Lemma pending_store_map (r : loc) (x : Robot) (c : Message) (s : Store) :
  robots (heap s) !! r = Some x ->
  pending_message r (heap (store_map (data x) c s)) = Some c
  /\ pending_mentions r (heap (store_map (data x) c s)) = people (heap s) !! at_ x.
Proof.
  intros Hr. unfold pending_message, pending_mentions. simpl. rewrite Hr.
  split; [apply lookup_insert_eq | reflexivity].
Qed.

Lemma merged_at (m : Message) (a : AtPeople) :
  merged m a !! "at" = Some (VMap (serialize_of a)).
Proof. apply lookup_insert_eq. Qed.

Lemma merged_nonempty (m : Message) (a : AtPeople) : merged m a <> ∅.
Proof. apply insert_non_empty. Qed.

(** The entries of a serialized mention state. *)
Lemma serialize_of_lookup (a : AtPeople) (k : string) (v : Value) :
  serialize_of a !! k = Some v <->
  (k = "atMobiles" /\ atMobiles a <> [] /\ v = VStrings (atMobiles a)) \/
  (k = "atUserIds" /\ atUserIds a <> [] /\ v = VStrings (atUserIds a)) \/
  (k = "isAtAll" /\ isAtAll a = true /\ v = VBool true).
Proof.
  unfold serialize_of, Const.atMobiles, Const.atUserIds, Const.atAll.
  destruct a as [[|m ms] [|u us] []]; simpl;
    rewrite ?lookup_insert, ?lookup_empty;
    repeat case_decide; naive_solver.
Qed.

Lemma with_options_nil (p : loc) (s : Store) (a : AtPeople) :
  people (heap s) !! p = Some a ->
  with_options [] p s = Some (serialize_of a, s).
Proof. intros H. unfold with_options. simpl. now apply serialize_run. Qed.

Lemma with_options_cons (opt : AtOption) (opts : list AtOption) (p : loc)
    (s s' : Store) :
  opt p s = Some (tt, s') ->
  with_options (opt :: opts) p s = with_options opts p s'.
Proof.
  intros H. unfold with_options. simpl.
  unfold bind at 1 2. now rewrite H.
Qed.

Lemma serialize_of_no_mobiles (a : AtPeople) :
  atMobiles a = [] -> serialize_of a !! "atMobiles" = None.
Proof.
  intros H. destruct (serialize_of a !! "atMobiles") as [v|] eqn:E; [|reflexivity].
  apply serialize_of_lookup in E. naive_solver.
Qed.

Lemma serialize_of_no_userIds (a : AtPeople) :
  atUserIds a = [] -> serialize_of a !! "atUserIds" = None.
Proof.
  intros H. destruct (serialize_of a !! "atUserIds") as [v|] eqn:E; [|reflexivity].
  apply serialize_of_lookup in E. naive_solver.
Qed.

Lemma Response_Error_contains (res : Response) :
  contains (Fmt.d (ErrCode res)) (Response_Error res)
  /\ contains (ErrMsg res) (Response_Error res).
Proof.
  unfold Response_Error. split.
  - exists "dding talk response info: errcode=", (",errmsg=" +:+ ErrMsg res).
    reflexivity.
  - exists ("dding talk response info: errcode=" +:+ Fmt.d (ErrCode res) +:+ ",errmsg="),
      EmptyString.
    rewrite !append_assoc.
    assert (Hnil : forall t : string, t +:+ EmptyString = t).
    { induction t as [|c t IH]; [reflexivity|].
      change (String c (t +:+ EmptyString) = String c t). now rewrite IH. }
    now rewrite Hnil.
Qed.

Lemma send_body_read (w : World) (r : loc) (s : Store) (x : Robot)
    (m : Message) (a : AtPeople) (reqData respData : list byte) :
  robots (heap s) !! r = Some x ->
  maps (heap s) !! data x = Some m ->
  people (heap s) !! at_ x = Some a ->
  Marshal w (merged m a) = inl reqData ->
  Post w (buildQuery_at (now w) x) "application/json" reqData = inl (mkHttpResponse (inl respData)) ->
  let res := (Unmarshal w respData zeroResponse).1 in
  send w r (data x) s =
    if (ErrCode res =? 0)%Z
    then Some (None,
               after_send w r x m a reqData
                 [ReadAll; LogInfo "message was successfully send to dding talk"] s)
    else Some (Some (RespError res),
               after_send w r x m a reqData
                 [ReadAll; LogError (Response_Error res) None] s).
Proof.
  intros Hr Hm Ha HM HP res.
  rewrite (send_posted w r s x m a reqData Hr Hm Ha HM). cbv zeta.
  rewrite HP. unfold handle_answer. fold res.
  now destruct (ErrCode res =? 0)%Z.
Qed.

(* ===================================================================== *)
(** ** Signing: [buildQuery] *)
(* ===================================================================== *)

Lemma buildQuery_at_eq (T : Z) (x : Robot) :
  buildQuery_at T x =
  Const.apiUrl +:+ AccessToken x +:+ "&timestamp=" +:+ Fmt.d T
    +:+ "&sign=" +:+ signature_of T (Secret x).
Proof. unfold buildQuery_at. now rewrite append_assoc. Qed.

Lemma signature_shape (T : Z) (secret : string) :
  String.length (signature_of T secret) = 44%nat /\
  String.get 43 (signature_of T secret) = Some "="%char.
Proof. apply base64_digest, hmac_length. Qed.

(** C1.  For every robot (access token, secret) and clock reading [T],
    [buildQuery] returns the base URL, the token, ["&timestamp="], [T] in
    decimal, ["&sign="] and the signature [S], where [S] is the standard
    base64 encoding of HMAC-SHA256 keyed with the bytes of the secret over
    [T], a line feed and the secret.  [S] is appended as it is: it is 44
    characters long and its padding character [=] is the last character
    of the signature in the URL.  The result depends on the token, the
    secret and [T] only, and the store is left unchanged. *)
Theorem buildQuery_signed_url (w : World) (r : loc) (s : Store) (x : Robot) :
  robots (heap s) !! r = Some x ->
  let S := Base64.encode
             (Hmac.Sum (bytes_of (Secret x))
                (bytes_of (Fmt.d (now w) +:+ newline +:+ Secret x))) in
  buildQuery w r s =
    Some (Const.apiUrl +:+ AccessToken x +:+ "&timestamp=" +:+ Fmt.d (now w)
            +:+ "&sign=" +:+ S, s)
  /\ String.length S = 44%nat
  /\ String.get 43 S = Some "="%char
  /\ (forall (w' : World) (r' : loc) (s' : Store) (x' : Robot) (u u' : string),
        robots (heap s') !! r' = Some x' ->
        now w' = now w -> Secret x' = Secret x ->
        AccessToken x' = AccessToken x ->
        buildQuery w r s = Some (u, s) ->
        buildQuery w' r' s' = Some (u', s') ->
        u' = u).
Proof.
  intros Hr S.
  assert (Hrun : forall w0 r0 s0 x0, robots (heap s0) !! r0 = Some x0 ->
            buildQuery w0 r0 s0 = Some (buildQuery_at (now w0) x0, s0)).
  { intros w0 r0 s0 x0 H0.
    unfold buildQuery, getRobot, bind, get_heap. now rewrite H0. }
  split; [|split; [|split]].
  - rewrite (Hrun _ _ _ _ Hr), buildQuery_at_eq. reflexivity.
  - apply signature_shape.
  - apply signature_shape.
  - intros w' r' s' x' u u' Hr' Hnow Hsec Htok Hu Hu'.
    rewrite (Hrun _ _ _ _ Hr) in Hu. rewrite (Hrun _ _ _ _ Hr') in Hu'.
    unfold buildQuery_at in *. rewrite Hnow, Hsec, Htok in Hu'. congruence.
Qed.

Lemma buildQuery_signed_url_witness :
  robots (heap sampleStore) !! 1%positive = Some (mkRobot "TOK" "SEC000000" 1 1) /\
  buildQuery (sampleWorld 1700000000001 okReply (zeroResponse, None)) 1 sampleStore =
    Some ("https://oapi.dingtalk.com/robot/send?access_token=TOK&timestamp=1700000000001&sign=eFeF/BembbD+A7pRNwtVB0N9k8LrDaFxTU7hd5UsWNk=",
          sampleStore).
Proof.
  split; [reflexivity|].
  pose proof (buildQuery_signed_url
    (sampleWorld 1700000000001 okReply (zeroResponse, None)) 1 sampleStore
    (mkRobot "TOK" "SEC000000" 1 1) eq_refl) as [H _].
  rewrite H. vm_compute. reflexivity.
Defined.

(* ===================================================================== *)
(** ** Message builders *)
(* ===================================================================== *)

(** C8.  On a robot whose pending message is empty, the text builder with
    content ["hello"] leaves exactly the two entries
    [msgtype -> "text"] and [text -> {content -> "hello"}] in the pending
    message, and the markdown builder with title ["T"] and text ["B"]
    leaves exactly [msgtype -> "markdown"] and
    [markdown -> {title -> "T", text -> "B"}]; nothing else in the store
    changes. *)
Theorem builders_payload (r : loc) (s : Store) (x : Robot) :
  robots (heap s) !! r = Some x ->
  maps (heap s) !! data x = Some ∅ ->
  TextType "hello" r s =
    Some (tt, store_map (data x)
      {[ "msgtype" := VString "text";
         "text" := VStringMap {[ "content" := "hello" ]} ]} s)
  /\ pending_message r
       (heap (store_map (data x)
          {[ "msgtype" := VString "text";
             "text" := VStringMap {[ "content" := "hello" ]} ]} s)) =
     Some {[ "msgtype" := VString "text";
             "text" := VStringMap {[ "content" := "hello" ]} ]}
  /\ MarkDownType "T" "B" r s =
    Some (tt, store_map (data x)
      {[ "msgtype" := VString "markdown";
         "markdown" := VStringMap {[ "title" := "T"; "text" := "B" ]} ]} s)
  /\ pending_message r
       (heap (store_map (data x)
          {[ "msgtype" := VString "markdown";
             "markdown" := VStringMap {[ "title" := "T"; "text" := "B" ]} ]} s)) =
     Some {[ "msgtype" := VString "markdown";
             "markdown" := VStringMap {[ "title" := "T"; "text" := "B" ]} ]}.
Proof.
  intros Hr Hm.
  assert (Hp : forall c, pending_message r (heap (store_map (data x) c s)) = Some c).
  { intros c. unfold pending_message. simpl. rewrite Hr. apply lookup_insert_eq. }
  split; [|split; [apply Hp|split; [|apply Hp]]].
  - rewrite (TextType_run _ _ _ _ _ Hr Hm). reflexivity.
  - rewrite (MarkDownType_run _ _ _ _ _ _ Hr Hm). reflexivity.
Qed.

Lemma builders_payload_witness :
  robots (heap sampleStore) !! 1%positive = Some (mkRobot "TOK" "SEC000000" 1 1) /\
  maps (heap sampleStore) !! 1%positive = Some ∅ /\
  TextType "hello" 1%positive sampleStore =
    Some (tt, store_map 1%positive
      {[ "msgtype" := VString "text";
         "text" := VStringMap {[ "content" := "hello" ]} ]} sampleStore).
Proof.
  split; [reflexivity|]. split; [reflexivity|].
  apply (builders_payload 1%positive sampleStore (mkRobot "TOK" "SEC000000" 1 1));
    reflexivity.
Defined.

(** The same payloads as the sample encoder prints them. *)
Example builders_payload_json :
  Json.value (VMap {[ "msgtype" := VString "text";
                      "text" := VStringMap {[ "content" := "hello" ]} ]}) =
    Some ("{" +:+ Json.quote "msgtype" +:+ ":" +:+ Json.quote "text" +:+ ","
          +:+ Json.quote "text" +:+ ":{" +:+ Json.quote "content" +:+ ":"
          +:+ Json.quote "hello" +:+ "}}").
Proof. vm_compute. reflexivity. Qed.

(* ===================================================================== *)
(** ** Mention serialization and options *)
(* ===================================================================== *)

(** C7.  Serializing the mention state only reads the struct: the result
    is a function of its three fields and the store is unchanged.  An
    entry is present exactly for a non-empty list or a set flag.  On a
    fresh mention state: no option gives the empty mapping, [WithAtAll]
    alone gives [{isAtAll: true}], [WithAtMobiles("111","222")] alone
    gives [{atMobiles: ["111","222"]}], and the three options together
    (with non-empty arguments) give a mapping with all three keys. *)
Theorem serialize_mentions (p : loc) (s : Store) :
  people (heap s) !! p = Some zeroAtPeople ->
  (forall (s' : Store) (a : AtPeople),
      people (heap s') !! p = Some a ->
      serialize p s' = Some (serialize_of a, s'))
  /\ (forall (a : AtPeople) (k : string) (v : Value),
      serialize_of a !! k = Some v <->
      (k = "atMobiles" /\ atMobiles a <> [] /\ v = VStrings (atMobiles a)) \/
      (k = "atUserIds" /\ atUserIds a <> [] /\ v = VStrings (atUserIds a)) \/
      (k = "isAtAll" /\ isAtAll a = true /\ v = VBool true))
  /\ with_options [] p s = Some (∅, s)
  /\ with_options [WithAtAll] p s =
       Some ({[ "isAtAll" := VBool true ]},
             store_people p (mkAtPeople [] [] true) s)
  /\ with_options [WithAtMobiles ["111"; "222"]] p s =
       Some ({[ "atMobiles" := VStrings ["111"; "222"] ]},
             store_people p (mkAtPeople ["111"; "222"] [] false) s)
  /\ (forall (m u : list string), m <> [] -> u <> [] ->
        with_options [WithAtMobiles m; WithAtUserIds u; WithAtAll] p s =
          Some ({[ "atMobiles" := VStrings m; "atUserIds" := VStrings u;
                   "isAtAll" := VBool true ]},
                store_people p (mkAtPeople m u true) s)).
Proof.
  intros Hp.
  split; [intros s' a Ha; now apply serialize_run|].
  split; [apply serialize_of_lookup|].
  split; [now rewrite (with_options_nil _ _ _ Hp)|].
  split; [|split].
  - rewrite (with_options_cons _ _ _ _ _ (WithAtAll_run _ _ _ Hp)).
    now rewrite (with_options_nil _ _ _ (store_people_lookup _ _ _)).
  - rewrite (with_options_cons _ _ _ _ _ (WithAtMobiles_run _ _ _ _ Hp)).
    now rewrite (with_options_nil _ _ _ (store_people_lookup _ _ _)).
  - intros m u Hm Hu.
    rewrite (with_options_cons _ _ _ _ _ (WithAtMobiles_run _ _ _ _ Hp)).
    rewrite (with_options_cons _ _ _ _ _
               (WithAtUserIds_run _ _ _ _ (store_people_lookup _ _ _))).
    rewrite (with_options_cons _ _ _ _ _
               (WithAtAll_run _ _ _ (store_people_lookup _ _ _))).
    rewrite (with_options_nil _ _ _ (store_people_lookup _ _ _)).
    rewrite !store_people_twice. simpl.
    destruct m as [|m0 m]; [done|]. destruct u as [|u0 u]; [done|].
    reflexivity.
Qed.

Lemma serialize_mentions_witness :
  people (heap sampleStore) !! 1%positive = Some zeroAtPeople /\
  with_options [WithAtAll] 1%positive sampleStore =
    Some ({[ "isAtAll" := VBool true ]},
          store_people 1%positive (mkAtPeople [] [] true) sampleStore).
Proof.
  split; [reflexivity|].
  apply (serialize_mentions 1%positive sampleStore). reflexivity.
Defined.

(** C10.  [WithAtMobiles()] and [WithAtUserIds()] without arguments store
    the empty list in their field.  The serialized mention state then has
    no entry under that key, also when an earlier option of the same call
    had stored a non-empty list there. *)
Theorem zero_argument_options (p : loc) (s : Store) (a : AtPeople) (l : list string) :
  people (heap s) !! p = Some a ->
  WithAtMobiles [] p s =
    Some (tt, store_people p (mkAtPeople [] (atUserIds a) (isAtAll a)) s)
  /\ WithAtUserIds [] p s =
    Some (tt, store_people p (mkAtPeople (atMobiles a) [] (isAtAll a)) s)
  /\ (exists m : gmap string Value,
        with_options [WithAtMobiles []] p s =
          Some (m, store_people p (mkAtPeople [] (atUserIds a) (isAtAll a)) s)
        /\ m !! "atMobiles" = None)
  /\ (exists m : gmap string Value,
        with_options [WithAtUserIds []] p s =
          Some (m, store_people p (mkAtPeople (atMobiles a) [] (isAtAll a)) s)
        /\ m !! "atUserIds" = None)
  /\ (exists m : gmap string Value,
        with_options [WithAtMobiles l; WithAtMobiles []] p s =
          Some (m, store_people p (mkAtPeople [] (atUserIds a) (isAtAll a)) s)
        /\ m !! "atMobiles" = None)
  /\ (exists m : gmap string Value,
        with_options [WithAtUserIds l; WithAtUserIds []] p s =
          Some (m, store_people p (mkAtPeople (atMobiles a) [] (isAtAll a)) s)
        /\ m !! "atUserIds" = None).
Proof.
  intros Hp.
  split; [now apply WithAtMobiles_run|].
  split; [now apply WithAtUserIds_run|].
  split; [|split; [|split]].
  - eexists. split.
    { rewrite (with_options_cons _ _ _ _ _ (WithAtMobiles_run _ _ _ _ Hp)).
      now rewrite (with_options_nil _ _ _ (store_people_lookup _ _ _)). }
    now apply serialize_of_no_mobiles.
  - eexists. split.
    { rewrite (with_options_cons _ _ _ _ _ (WithAtUserIds_run _ _ _ _ Hp)).
      now rewrite (with_options_nil _ _ _ (store_people_lookup _ _ _)). }
    now apply serialize_of_no_userIds.
  - eexists. split.
    { rewrite (with_options_cons _ _ _ _ _ (WithAtMobiles_run _ _ _ _ Hp)).
      rewrite (with_options_cons _ _ _ _ _
                 (WithAtMobiles_run _ _ _ _ (store_people_lookup _ _ _))).
      rewrite (with_options_nil _ _ _ (store_people_lookup _ _ _)).
      now rewrite store_people_twice. }
    now apply serialize_of_no_mobiles.
  - eexists. split.
    { rewrite (with_options_cons _ _ _ _ _ (WithAtUserIds_run _ _ _ _ Hp)).
      rewrite (with_options_cons _ _ _ _ _
                 (WithAtUserIds_run _ _ _ _ (store_people_lookup _ _ _))).
      rewrite (with_options_nil _ _ _ (store_people_lookup _ _ _)).
      now rewrite store_people_twice. }
    now apply serialize_of_no_userIds.
Qed.

Lemma zero_argument_options_witness :
  people (heap sampleStore) !! 1%positive = Some zeroAtPeople /\
  exists m : gmap string Value,
    with_options [WithAtMobiles ["111"]; WithAtMobiles []] 1%positive sampleStore =
      Some (m, store_people 1%positive (mkAtPeople [] [] false) sampleStore)
    /\ m !! "atMobiles" = None.
Proof.
  split; [reflexivity|].
  apply (zero_argument_options 1%positive sampleStore zeroAtPeople ["111"]).
  reflexivity.
Defined.

Example zero_argument_erases :
  fst <$> with_options [WithAtMobiles ["111"]; WithAtMobiles []] 1%positive sampleStore
    = Some ∅ /\
  fst <$> with_options [WithAtMobiles ["111"]] 1%positive sampleStore
    = Some {[ "atMobiles" := VStrings ["111"] ]}.
Proof. split; vm_compute; reflexivity. Qed.

(* ===================================================================== *)
(** ** Builder and options in [BuildMsgAndSend] *)
(* ===================================================================== *)

(** C6.  [BuildMsgAndSend] runs the builder once, on the store it is
    called in; the options then run from left to right on the mention
    struct the robot refers to after the builder; [send] starts from the
    resulting store.  This holds for every list of options, an option
    being any function: when each option of the list, called once and in
    the order of the list, returns, [send] is entered with the store the
    last one leaves; in particular, when the options act on the struct as
    functions [fs], [send] is entered with the functions applied in the
    order of the list to the mention state the builder left.  For the
    options of the package the mention state that reaches [send] is
    determined field by field by the last option for that field: the list
    of the last [WithAtMobiles] (of the last [WithAtUserIds]) replaces
    whatever earlier options stored, a field no option names keeps the
    value it had after the builder, and the flag is set when some option
    is [WithAtAll]. *)
Theorem BuildMsgAndSend_order (w : World) (r : loc) (smt : SendMsgType)
    (cs : list Choice) (s s1 : Store) (x : Robot) (a : AtPeople) :
  smt r s = Some (tt, s1) ->
  robots (heap s1) !! r = Some x ->
  people (heap s1) !! at_ x = Some a ->
  BuildMsgAndSend w r smt (map option_of cs) s =
    send w r (data x) (store_people (at_ x) (chosen cs a) s1)
  /\ (forall (opts : list AtOption) (s2 : Store) (x2 : Robot),
        applied_in_order r opts s1 s2 ->
        robots (heap s2) !! r = Some x2 ->
        BuildMsgAndSend w r smt opts s = send w r (data x2) s2)
  /\ (forall (opts : list AtOption) (fs : list (AtPeople -> AtPeople)),
        Forall2 acts_as opts fs ->
        BuildMsgAndSend w r smt opts s =
          send w r (data x)
            (store_people (at_ x) (fold_left (fun b f => f b) fs a) s1))
  /\ (forall cs1 cs2, chosen (cs1 ++ cs2) a = chosen cs2 (chosen cs1 a))
  /\ (forall pre l post,
        cs = pre ++ Mobiles l :: post ->
        forallb (fun c => negb (is_mobiles c)) post = true ->
        atMobiles (chosen cs a) = l)
  /\ (forall pre l post,
        cs = pre ++ UserIds l :: post ->
        forallb (fun c => negb (is_userIds c)) post = true ->
        atUserIds (chosen cs a) = l)
  /\ (forallb (fun c => negb (is_mobiles c)) cs = true ->
        atMobiles (chosen cs a) = atMobiles a)
  /\ (forallb (fun c => negb (is_userIds c)) cs = true ->
        atUserIds (chosen cs a) = atUserIds a)
  /\ isAtAll (chosen cs a) = isAtAll a || existsb is_all cs.
Proof.
  intros Hsmt Hr Ha.
  split; [now apply BuildMsgAndSend_run|].
  split.
  { intros opts s2 x2 Hopts Hr2.
    exact (BuildMsgAndSend_general w r smt opts s s1 s2 x2 Hsmt Hopts Hr2). }
  split.
  { intros opts fs Hacts.
    apply (BuildMsgAndSend_general w r smt opts s s1 _ x Hsmt).
    - now apply applied_in_order_pure.
    - exact Hr. }
  split; [intros; apply chosen_app|].
  split; [intros pre l post -> H; now apply chosen_mobiles_last|].
  split; [intros pre l post -> H; now apply chosen_userIds_last|].
  split; [apply chosen_mobiles_none|].
  split; [apply chosen_userIds_none|].
  apply chosen_all.
Qed.

Lemma BuildMsgAndSend_order_witness :
  TextType "hello" 1%positive sampleStore =
    Some (tt, store_map 1%positive sampleText sampleStore) /\
  robots (heap (store_map 1%positive sampleText sampleStore)) !! 1%positive =
    Some (mkRobot "TOK" "SEC000000" 1 1) /\
  people (heap (store_map 1%positive sampleText sampleStore)) !! 1%positive =
    Some zeroAtPeople /\
  BuildMsgAndSend (sampleWorld 1700000000001 okReply (zeroResponse, None))
      1%positive (TextType "hello") (map option_of sampleChoices) sampleStore =
    send (sampleWorld 1700000000001 okReply (zeroResponse, None)) 1%positive 1%positive
      (store_people 1%positive (mkAtPeople ["222"; "333"] [] true)
         (store_map 1%positive sampleText sampleStore)) /\
  BuildMsgAndSend (sampleWorld 1700000000001 okReply (zeroResponse, None))
      1%positive (TextType "hello") [ToggleAll; WithAtMobiles ["111"]] sampleStore =
    send (sampleWorld 1700000000001 okReply (zeroResponse, None)) 1%positive 1%positive
      (store_people 1%positive (mkAtPeople ["111"] [] true)
         (store_map 1%positive sampleText sampleStore)).
Proof.
  split; [reflexivity|]. split; [reflexivity|]. split; [reflexivity|].
  destruct (BuildMsgAndSend_order
              (sampleWorld 1700000000001 okReply (zeroResponse, None))
              1%positive (TextType "hello") sampleChoices sampleStore
              (store_map 1%positive sampleText sampleStore)
              (mkRobot "TOK" "SEC000000" 1 1) zeroAtPeople
              eq_refl eq_refl eq_refl) as (Hpkg & _ & Hfun & _).
  split; [exact Hpkg|].
  apply (Hfun [ToggleAll; WithAtMobiles ["111"]]
              [fun b => mkAtPeople (atMobiles b) (atUserIds b) (negb (isAtAll b));
               fun b => mkAtPeople ["111"] (atUserIds b) (isAtAll b)]).
  constructor; [exact ToggleAll_acts|].
  constructor; [exact (WithAtMobiles_acts ["111"])|].
  constructor.
Defined.

(* ===================================================================== *)
(** ** The pending state around a send *)
(* ===================================================================== *)

(** C3.  When the encoder rejects the merged message, [send] returns the
    encoder's error at once: the only call it makes is the error log
    record, nothing is posted.  The pending message is left as it was
    handed to the encoder (so it is not empty) and the robot still refers
    to the same, unchanged mention struct. *)
Theorem send_serialization_failure (w : World) (r : loc) (s : Store)
    (x : Robot) (m : Message) (a : AtPeople) (err : error) :
  robots (heap s) !! r = Some x ->
  maps (heap s) !! data x = Some m ->
  people (heap s) !! at_ x = Some a ->
  Marshal w (merged m a) = inr err ->
  exists s' : Store,
    send w r (data x) s = Some (Some err, s')
    /\ pending_message r (heap s') = Some (merged m a)
    /\ merged m a <> ∅
    /\ pending_mentions r (heap s') = Some a
    /\ robots (heap s') = robots (heap s)
    /\ people (heap s') = people (heap s)
    /\ trace s' =
         trace s ++ [(LogError "sonic serialization failed for data" (Some err),
                      heap s')].
Proof.
  intros Hr Hm Ha HM.
  eexists. split; [exact (send_marshal_failure w r s x m a err Hr Hm Ha HM)|].
  cbn [heap trace].
  destruct (pending_store_map r x (merged m a) s Hr) as [Hpm Hpa].
  split; [exact Hpm|].
  split; [apply merged_nonempty|].
  split; [now rewrite Hpa|].
  repeat split.
Qed.

Lemma send_serialization_failure_witness :
  robots (heap chanStore) !! 1%positive = Some sampleRobot /\
  maps (heap chanStore) !! 1%positive = Some {[ "ch" := VChan ]} /\
  people (heap chanStore) !! 1%positive = Some zeroAtPeople /\
  Marshal okWorld (merged {[ "ch" := VChan ]} zeroAtPeople) = inr marshalError /\
  exists s' : Store,
    send okWorld 1%positive (data sampleRobot) chanStore = Some (Some marshalError, s')
    /\ pending_message 1%positive (heap s') =
         Some (merged {[ "ch" := VChan ]} zeroAtPeople)
    /\ pending_mentions 1%positive (heap s') = Some zeroAtPeople.
Proof.
  split; [reflexivity|]. split; [reflexivity|]. split; [reflexivity|].
  split; [reflexivity|].
  destruct (send_serialization_failure okWorld 1%positive chanStore sampleRobot
              {[ "ch" := VChan ]} zeroAtPeople marshalError
              eq_refl eq_refl eq_refl eq_refl)
    as (s' & Hrun & Hpm & _ & Hpa & _).
  exists s'. split; [exact Hrun|]. split; [exact Hpm | exact Hpa].
Defined.

(** C2.  When the encoder accepts the message, [send] posts it and,
    whatever the answer to the POST and whatever happens afterwards, ends
    with the pending message empty and with the robot referring to a new
    mention struct, not present in the store before, whose fields are
    zero.  The POST is made with the merged message still pending; every
    later call of the same [send] (reading the body, the log records) is
    made after the reset, and when the POST succeeded the next call is the
    read of the body.  A following [BuildMsgAndSend] on the same robot
    therefore starts from the empty message and the zero mention state:
    with the text builder, [send] is entered with the text payload alone
    pending and with the mention state its own options make from zero. *)
Theorem send_resets_after_post (w : World) (r : loc) (s : Store)
    (x : Robot) (m : Message) (a : AtPeople) (reqData : list byte) :
  robots (heap s) !! r = Some x ->
  maps (heap s) !! data x = Some m ->
  people (heap s) !! at_ x = Some a ->
  Marshal w (merged m a) = inl reqData ->
  exists (res : option error) (s' : Store) (hPost : Heap)
         (later : list (Event * Heap)),
    send w r (data x) s = Some (res, s')
    /\ pending_message r (heap s') = Some ∅
    /\ pending_mentions r (heap s') = Some zeroAtPeople
    /\ (exists x', robots (heap s') !! r = Some x'
                   /\ data x' = data x
                   /\ AccessToken x' = AccessToken x
                   /\ Secret x' = Secret x
                   /\ people (heap s) !! at_ x' = None)
    /\ trace s' =
         trace s ++ (HttpPost (buildQuery_at (now w) x) "application/json" reqData,
                     hPost) :: later
    /\ pending_message r hPost = Some (merged m a)
    /\ pending_mentions r hPost = Some a
    /\ (forall e h, (e, h) ∈ later ->
          pending_message r h = Some ∅ /\ pending_mentions r h = Some zeroAtPeople)
    /\ (forall resp,
          Post w (buildQuery_at (now w) x) "application/json" reqData = inl resp ->
          exists rest, later = (ReadAll, heap s') :: rest)
    /\ (forall err,
          Post w (buildQuery_at (now w) x) "application/json" reqData = inr err ->
          res = Some err)
    /\ (forall (w2 : World) (content : string) (cs2 : list Choice) (x' : Robot),
          robots (heap s') !! r = Some x' ->
          BuildMsgAndSend w2 r (TextType content) (map option_of cs2) s' =
            send w2 r (data x')
              (store_people (at_ x') (chosen cs2 zeroAtPeople)
                 (store_map (data x') (text_over content ∅) s'))).
Proof.
  intros Hr Hm Ha HM.
  pose proof (send_posted w r s x m a reqData Hr Hm Ha HM) as Hsend.
  cbv zeta in Hsend.
  do 4 eexists. split; [exact Hsend|]. unfold after_send. cbn [heap trace].
  destruct (pending_store_map r x (merged m a) s Hr) as [Hpm Hpa].
  split; [apply pending_message_reset|].
  split; [apply pending_mentions_reset|].
  split; [apply reset_heap_fresh|].
  split; [reflexivity|].
  split; [exact Hpm|].
  split; [now rewrite Hpa|].
  split; [|split; [|split]].
  - intros e h Hin. apply list_elem_of_fmap in Hin as (e' & Heq & _).
    inversion Heq; subst.
    split; [apply pending_message_reset | apply pending_mentions_reset].
  - intros resp Hresp. rewrite Hresp. unfold handle_answer.
    destruct resp as [[respData|err]]; [|eexists; reflexivity].
    destruct (negb _); eexists; reflexivity.
  - intros err Hpost. rewrite Hpost. reflexivity.
  - intros w2 content cs2 x' Hr'.
    pose proof (pending_message_reset r x (heap s)) as Hm'.
    pose proof (pending_mentions_reset r x (heap s)) as Ha'.
    unfold pending_message in Hm'. unfold pending_mentions in Ha'.
    cbn [heap] in Hr'. rewrite Hr' in Hm', Ha'.
    eapply BuildMsgAndSend_run.
    + eapply TextType_run; [exact Hr' | exact Hm'].
    + exact Hr'.
    + exact Ha'.
Qed.

Lemma send_resets_after_post_witness :
  robots (heap textStore) !! 1%positive = Some sampleRobot /\
  maps (heap textStore) !! 1%positive = Some sampleText /\
  people (heap textStore) !! 1%positive = Some zeroAtPeople /\
  Marshal okWorld (merged sampleText zeroAtPeople) = inl textRequest /\
  exists (res : option error) (s' : Store),
    send okWorld 1%positive (data sampleRobot) textStore = Some (res, s')
    /\ pending_message 1%positive (heap s') = Some ∅
    /\ pending_mentions 1%positive (heap s') = Some zeroAtPeople.
Proof.
  split; [reflexivity|]. split; [reflexivity|]. split; [reflexivity|].
  split; [reflexivity|].
  destruct (send_resets_after_post okWorld 1%positive textStore sampleRobot
              sampleText zeroAtPeople textRequest
              eq_refl eq_refl eq_refl eq_refl)
    as (res & s' & hPost & later & Hrun & Hpm & Hpa & _).
  exists res, s'. split; [exact Hrun|]. split; [exact Hpm | exact Hpa].
Defined.

(* ===================================================================== *)
(** ** The response *)
(* ===================================================================== *)

(** C5.  When the POST succeeded and the body was read, [send] returns
    nil exactly when the error code of the response struct after
    parsing is zero.  For a non-zero code it returns the response as the
    error; its message is ["dding talk response info: errcode="], the code
    in decimal, [",errmsg="] and the error text, so it contains both. *)
Theorem send_result_by_code (w : World) (r : loc) (s : Store) (x : Robot)
    (m : Message) (a : AtPeople) (reqData respData : list byte) :
  robots (heap s) !! r = Some x ->
  maps (heap s) !! data x = Some m ->
  people (heap s) !! at_ x = Some a ->
  Marshal w (merged m a) = inl reqData ->
  Post w (buildQuery_at (now w) x) "application/json" reqData = inl (mkHttpResponse (inl respData)) ->
  exists (out : option error) (s' : Store),
    send w r (data x) s = Some (out, s')
    /\ (out = None <-> ErrCode (Unmarshal w respData zeroResponse).1 = 0%Z)
    /\ (ErrCode (Unmarshal w respData zeroResponse).1 <> 0%Z ->
          out = Some (RespError (Unmarshal w respData zeroResponse).1)
          /\ forall e : error, out = Some e ->
               Error e =
                 "dding talk response info: errcode="
                   +:+ Fmt.d (ErrCode (Unmarshal w respData zeroResponse).1)
                   +:+ ",errmsg=" +:+ ErrMsg (Unmarshal w respData zeroResponse).1
               /\ contains (Fmt.d (ErrCode (Unmarshal w respData zeroResponse).1)) (Error e)
               /\ contains (ErrMsg (Unmarshal w respData zeroResponse).1) (Error e)).
Proof.
  intros Hr Hm Ha HM HP.
  pose proof (send_body_read w r s x m a reqData respData Hr Hm Ha HM HP) as Hs.
  cbv zeta in Hs.
  destruct (ErrCode (Unmarshal w respData zeroResponse).1 =? 0)%Z eqn:E.
  - apply Z.eqb_eq in E. do 2 eexists. split; [exact Hs|].
    split; [tauto|]. intros Hne. contradiction.
  - apply Z.eqb_neq in E. do 2 eexists. split; [exact Hs|].
    split; [split; [discriminate | contradiction]|].
    intros _. split; [reflexivity|].
    intros e [= <-]. simpl.
    split; [reflexivity | apply Response_Error_contains].
Qed.

Example Response_Error_example :
  Response_Error (mkResponse 300001 "token is not exist") =
  "dding talk response info: errcode=300001,errmsg=token is not exist".
Proof. reflexivity. Qed.

Lemma send_result_by_code_witness :
  robots (heap textStore) !! 1%positive = Some sampleRobot /\
  maps (heap textStore) !! 1%positive = Some sampleText /\
  people (heap textStore) !! 1%positive = Some zeroAtPeople /\
  Marshal refusedWorld (merged sampleText zeroAtPeople) = inl textRequest /\
  Post refusedWorld (buildQuery_at (now refusedWorld) sampleRobot)
    "application/json" textRequest = inl (mkHttpResponse (inl (bytes_of "{}"))) /\
  exists (out : option error) (s' : Store),
    send refusedWorld 1%positive (data sampleRobot) textStore = Some (out, s')
    /\ (out = None <->
        ErrCode (Unmarshal refusedWorld (bytes_of "{}") zeroResponse).1 = 0%Z).
Proof.
  split; [reflexivity|]. split; [reflexivity|]. split; [reflexivity|].
  split; [reflexivity|]. split; [reflexivity|].
  destruct (send_result_by_code refusedWorld 1%positive textStore sampleRobot
              sampleText zeroAtPeople textRequest (bytes_of "{}")
              eq_refl eq_refl eq_refl eq_refl eq_refl)
    as (out & s' & Hrun & Hnil & _).
  exists out, s'. split; [exact Hrun | exact Hnil].
Defined.

(** C4, as the code has it.  The error returned by the decoder is
    dropped: the result of [send] and the store it leaves are determined
    by the response struct as the decoder left it, whether or not the
    decoder reported an error.  When the struct is still zero-valued after
    a failed decoding, [send] logs the success record and returns nil, as
    it does for a decoded error code 0; when the decoder had stored a
    non-zero code before it failed, [send] returns the structured
    error. *)
Theorem send_ignores_parse_error (w : World) (r : loc) (s : Store) (x : Robot)
    (m : Message) (a : AtPeople) (reqData respData : list byte)
    (res : Response) (perr : option error) :
  robots (heap s) !! r = Some x ->
  maps (heap s) !! data x = Some m ->
  people (heap s) !! at_ x = Some a ->
  Marshal w (merged m a) = inl reqData ->
  Post w (buildQuery_at (now w) x) "application/json" reqData = inl (mkHttpResponse (inl respData)) ->
  Unmarshal w respData zeroResponse = (res, perr) ->
  send w r (data x) s =
    (if (ErrCode res =? 0)%Z
     then Some (None,
                after_send w r x m a reqData
                  [ReadAll; LogInfo "message was successfully send to dding talk"] s)
     else Some (Some (RespError res),
                after_send w r x m a reqData
                  [ReadAll; LogError (Response_Error res) None] s))
  /\ (res = zeroResponse ->
        send w r (data x) s =
          Some (None,
                after_send w r x m a reqData
                  [ReadAll; LogInfo "message was successfully send to dding talk"] s)).
Proof.
  intros Hr Hm Ha HM HP HU.
  pose proof (send_body_read w r s x m a reqData respData Hr Hm Ha HM HP) as Hs.
  cbv zeta in Hs. rewrite HU in Hs. simpl in Hs.
  split; [exact Hs|].
  intros ->. exact Hs.
Qed.

Lemma send_ignores_parse_error_witness :
  robots (heap textStore) !! 1%positive = Some sampleRobot /\
  maps (heap textStore) !! 1%positive = Some sampleText /\
  people (heap textStore) !! 1%positive = Some zeroAtPeople /\
  Unmarshal garbageWorld (bytes_of "<html>Bad Gateway</html>") zeroResponse =
    (zeroResponse, Some (LibError "Syntax error at index 0: invalid char")) /\
  send garbageWorld 1%positive (data sampleRobot) textStore =
    Some (None,
          after_send garbageWorld 1%positive sampleRobot sampleText zeroAtPeople
            textRequest
            [ReadAll; LogInfo "message was successfully send to dding talk"]
            textStore).
Proof.
  split; [reflexivity|]. split; [reflexivity|]. split; [reflexivity|].
  split; [reflexivity|].
  apply (send_ignores_parse_error garbageWorld 1%positive textStore sampleRobot
           sampleText zeroAtPeople textRequest
           (bytes_of "<html>Bad Gateway</html>") zeroResponse
           (Some (LibError "Syntax error at index 0: invalid char")));
    reflexivity.
Defined.

(** C4 as stated fails: in [mismatchWorld] the decoder reports an error,
    the response struct is not zero-valued, and the call returns an
    error. *)
Lemma parse_failure_can_fail_the_call :
  robots (heap textStore) !! 1%positive = Some sampleRobot /\
  maps (heap textStore) !! 1%positive = Some sampleText /\
  people (heap textStore) !! 1%positive = Some zeroAtPeople /\
  Marshal mismatchWorld (merged sampleText zeroAtPeople) = inl textRequest /\
  Post mismatchWorld (buildQuery_at (now mismatchWorld) sampleRobot)
    "application/json" textRequest = inl (mkHttpResponse (inl mismatchBody)) /\
  (Unmarshal mismatchWorld mismatchBody zeroResponse).2 =
    Some (LibError "Mismatch type string with value number") /\
  (Unmarshal mismatchWorld mismatchBody zeroResponse).1 <> zeroResponse /\
  fst <$> send mismatchWorld 1%positive (data sampleRobot) textStore =
    Some (Some (RespError (mkResponse 300001 EmptyString))) /\
  ~ (forall (w : World) (r : loc) (s : Store) (x : Robot) (m : Message)
            (a : AtPeople) (reqData respData : list byte) (perr : error),
        robots (heap s) !! r = Some x ->
        maps (heap s) !! data x = Some m ->
        people (heap s) !! at_ x = Some a ->
        Marshal w (merged m a) = inl reqData ->
        Post w (buildQuery_at (now w) x) "application/json" reqData
          = inl (mkHttpResponse (inl respData)) ->
        (Unmarshal w respData zeroResponse).2 = Some perr ->
        (Unmarshal w respData zeroResponse).1 = zeroResponse
        /\ fst <$> send w r (data x) s = Some None).
Proof.
  assert (Hsend : fst <$> send mismatchWorld 1%positive (data sampleRobot) textStore =
                  Some (Some (RespError (mkResponse 300001 EmptyString)))).
  { vm_compute. reflexivity. }
  split; [reflexivity|]. split; [reflexivity|]. split; [reflexivity|].
  split; [reflexivity|]. split; [reflexivity|]. split; [reflexivity|].
  split; [discriminate|]. split; [exact Hsend|].
  intros Hall.
  destruct (Hall mismatchWorld 1%positive textStore sampleRobot sampleText
              zeroAtPeople textRequest mismatchBody
              (LibError "Mismatch type string with value number")
              eq_refl eq_refl eq_refl eq_refl eq_refl eq_refl) as [Hzero _].
  discriminate Hzero.
Qed.

(* ===================================================================== *)
(** ** A failed serialization and the next call *)
(* ===================================================================== *)

(** C9.  When the encoder rejects the message of a call, the pending
    message that is left is the builder's message with the serialized
    mention state of that call stored under ["at"]; the mention state is
    left as the options made it.  A following call on the same robot
    starts from both: its text builder writes over the left-over pending
    message, and its options are applied to the left-over mention
    state. *)
Theorem failed_call_leaves_mentions_merged (w : World) (r : loc)
    (smt : SendMsgType) (cs : list Choice) (s s1 : Store) (x : Robot)
    (m : Message) (a : AtPeople) (err : error) :
  smt r s = Some (tt, s1) ->
  robots (heap s1) !! r = Some x ->
  maps (heap s1) !! data x = Some m ->
  people (heap s1) !! at_ x = Some a ->
  Marshal w (merged m (chosen cs a)) = inr err ->
  exists s' : Store,
    BuildMsgAndSend w r smt (map option_of cs) s = Some (Some err, s')
    /\ pending_message r (heap s') =
         Some (<["at" := VMap (serialize_of (chosen cs a))]> m)
    /\ (forall c, pending_message r (heap s') = Some c ->
          c !! "at" = Some (VMap (serialize_of (chosen cs a))))
    /\ pending_mentions r (heap s') = Some (chosen cs a)
    /\ (forall (w2 : World) (content : string) (cs2 : list Choice),
          BuildMsgAndSend w2 r (TextType content) (map option_of cs2) s' =
            send w2 r (data x)
              (store_people (at_ x) (chosen cs2 (chosen cs a))
                 (store_map (data x)
                    (text_over content
                       (<["at" := VMap (serialize_of (chosen cs a))]> m)) s'))).
Proof.
  intros Hsmt Hr Hm Ha HM.
  set (a' := chosen cs a) in *.
  set (s2 := store_people (at_ x) a' s1).
  assert (Hr2 : robots (heap s2) !! r = Some x) by exact Hr.
  assert (Hm2 : maps (heap s2) !! data x = Some m) by exact Hm.
  assert (Ha2 : people (heap s2) !! at_ x = Some a') by apply store_people_lookup.
  pose proof (send_marshal_failure w r s2 x m a' err Hr2 Hm2 Ha2 HM) as Hsend.
  destruct (pending_store_map r x (merged m a') s2 Hr2) as [Hpm Hpa].
  rewrite Ha2 in Hpa.
  eexists. split; [rewrite (BuildMsgAndSend_run w r smt cs s s1 x a Hsmt Hr Ha);
                   exact Hsend|].
  set (s' := mkStore (heap (store_map (data x) (merged m a') s2)) _).
  change (pending_message r (heap s') = Some (merged m a')) in Hpm.
  change (pending_mentions r (heap s') = Some a') in Hpa.
  assert (Hrob : robots (heap s') = robots (heap s2)) by reflexivity.
  split; [exact Hpm|].
  split; [intros c Hc; rewrite Hpm in Hc; injection Hc as <-; apply merged_at|].
  split; [exact Hpa|].
  intros w2 content cs2.
  assert (Hr' : robots (heap s') !! r = Some x) by (rewrite Hrob; exact Hr2).
  assert (Hm' : maps (heap s') !! data x = Some (merged m a')).
  { unfold pending_message in Hpm. now rewrite Hr' in Hpm. }
  assert (Ha' : people (heap s') !! at_ x = Some a').
  { unfold pending_mentions in Hpa. now rewrite Hr' in Hpa. }
  apply (BuildMsgAndSend_run w2 r (TextType content) cs2 s'
           (store_map (data x) (text_over content (merged m a')) s') x a').
  - exact (TextType_run content r s' x (merged m a') Hr' Hm').
  - exact Hr'.
  - exact Ha'.
Qed.

Lemma failed_call_leaves_mentions_merged_witness :
  ChanType 1%positive sampleStore = Some (tt, chanStore) /\
  robots (heap chanStore) !! 1%positive = Some sampleRobot /\
  maps (heap chanStore) !! 1%positive = Some {[ "ch" := VChan ]} /\
  people (heap chanStore) !! 1%positive = Some zeroAtPeople /\
  Marshal okWorld (merged {[ "ch" := VChan ]} (chosen [All] zeroAtPeople)) =
    inr marshalError /\
  exists s' : Store,
    BuildMsgAndSend okWorld 1%positive ChanType (map option_of [All]) sampleStore =
      Some (Some marshalError, s')
    /\ pending_message 1%positive (heap s') =
         Some {[ "at" := VMap {[ "isAtAll" := VBool true ]}; "ch" := VChan ]}.
Proof.
  split; [reflexivity|]. split; [reflexivity|]. split; [reflexivity|].
  split; [reflexivity|]. split; [reflexivity|].
  destruct (failed_call_leaves_mentions_merged okWorld 1%positive ChanType [All]
              sampleStore chanStore sampleRobot {[ "ch" := VChan ]} zeroAtPeople
              marshalError eq_refl eq_refl eq_refl eq_refl eq_refl)
    as (s' & Hrun & Hpm & _).
  exists s'. split; [exact Hrun | exact Hpm].
Defined.

(* ===================================================================== *)
(** ** Sample runs *)
(* ===================================================================== *)

(** Two calls in sequence on one robot: the second request carries
    nothing of the first. *)
Example two_calls :
  events
    (let* r := NewRobot okWorld "TOK" "SEC000000" in
     let* e1 := BuildMsgAndSend okWorld r (TextType "hello")
                  [WithAtMobiles ["111"]; WithAtAll] in
     let* e2 := BuildMsgAndSend okWorld r (MarkDownType "T" "B") [] in
     ret (e1, e2)) emptyStore
  = Some ((None, None),
      [ HttpPost signedUrl "application/json"
          (bytes_of ("{" +:+ Json.quote "msgtype" +:+ ":" +:+ Json.quote "text"
             +:+ "," +:+ Json.quote "at" +:+ ":{" +:+ Json.quote "isAtAll"
             +:+ ":true," +:+ Json.quote "atMobiles" +:+ ":[" +:+ Json.quote "111"
             +:+ "]}," +:+ Json.quote "text" +:+ ":{" +:+ Json.quote "content"
             +:+ ":" +:+ Json.quote "hello" +:+ "}}"));
        ReadAll;
        LogInfo "message was successfully send to dding talk";
        HttpPost signedUrl "application/json"
          (bytes_of ("{" +:+ Json.quote "msgtype" +:+ ":" +:+ Json.quote "markdown"
             +:+ "," +:+ Json.quote "markdown" +:+ ":{" +:+ Json.quote "text"
             +:+ ":" +:+ Json.quote "B" +:+ "," +:+ Json.quote "title" +:+ ":"
             +:+ Json.quote "T" +:+ "}," +:+ Json.quote "at" +:+ ":{}}"));
        ReadAll;
        LogInfo "message was successfully send to dding talk" ]).
Proof. vm_compute. reflexivity. Qed.

(** A call whose message the encoder rejects, then a text call without
    options: the channel value and the mention flag of the first call are
    still there, so the second call fails in the same way and nothing is
    posted. *)
Example failed_call_then_text :
  events
    (let* r := NewRobot okWorld "TOK" "SEC000000" in
     let* e1 := BuildMsgAndSend okWorld r ChanType [WithAtAll] in
     let* e2 := BuildMsgAndSend okWorld r (TextType "hello") [] in
     let* h := get_heap in
     ret (e1, e2, pending_message r h, pending_mentions r h)) emptyStore
  = Some ((Some marshalError, Some marshalError,
           Some {[ "ch" := VChan;
                   "at" := VMap {[ "isAtAll" := VBool true ]};
                   "msgtype" := VString "text";
                   "text" := VStringMap {[ "content" := "hello" ]} ]},
           Some (mkAtPeople [] [] true)),
      [ LogError "sonic serialization failed for data" (Some marshalError);
        LogError "sonic serialization failed for data" (Some marshalError) ]).
Proof. vm_compute. reflexivity. Qed.

(* ===================================================================== *)
(** ** Further properties: construction *)
(* ===================================================================== *)

Lemma makeMessage_run (s : Store) :
  makeMessage s =
    Some (fresh (dom (maps (heap s))),
          store_map (fresh (dom (maps (heap s)))) ∅ s).
Proof. reflexivity. Qed.

Lemma allocRobot_run (x : Robot) (s : Store) :
  allocRobot x s =
    Some (fresh (dom (robots (heap s))),
          mkStore (mkHeap (<[fresh (dom (robots (heap s))) := x]> (robots (heap s)))
                          (maps (heap s)) (people (heap s))) (trace s)).
Proof. reflexivity. Qed.

(** X1.  When the logger can be built, [NewRobot] returns a reference
    that was not in use, to a robot with the given token and secret whose
    map and mention struct are new objects too: the pending message is
    empty and the mention state zero.  Nothing that was in the store is
    changed and no call is made.  When the logger cannot be built the
    program stops. *)
Theorem NewRobot_fresh (w : World) (accessToken secret : string) (s : Store) :
  logInit w = None ->
  exists (r d p : loc) (s' : Store),
    NewRobot w accessToken secret s = Some (r, s')
    /\ robots (heap s) !! r = None
    /\ maps (heap s) !! d = None
    /\ people (heap s) !! p = None
    /\ robots (heap s') = <[r := mkRobot accessToken secret d p]> (robots (heap s))
    /\ maps (heap s') = <[d := ∅]> (maps (heap s))
    /\ people (heap s') = <[p := zeroAtPeople]> (people (heap s))
    /\ trace s' = trace s
    /\ pending_message r (heap s') = Some ∅
    /\ pending_mentions r (heap s') = Some zeroAtPeople
    /\ usable r (heap s')
    /\ (forall w', logInit w' <> None -> NewRobot w' accessToken secret s = None).
Proof.
  intros Hlog.
  exists (fresh (dom (robots (heap s)))), (fresh (dom (maps (heap s)))),
         (fresh (dom (people (heap s)))).
  eexists. unfold NewRobot. rewrite Hlog.
  split.
  { erewrite bind_run by apply makeMessage_run. cbv beta.
    erewrite bind_run by apply newAtPeople_run. cbv beta.
    rewrite allocRobot_run. reflexivity. }
  cbn [heap trace robots maps people store_map store_people].
  assert (Hpm : pending_message (fresh (dom (robots (heap s))))
            (mkHeap (<[fresh (dom (robots (heap s))) :=
                         mkRobot accessToken secret (fresh (dom (maps (heap s))))
                           (fresh (dom (people (heap s))))]> (robots (heap s)))
                    (<[fresh (dom (maps (heap s))) := ∅]> (maps (heap s)))
                    (<[fresh (dom (people (heap s))) := zeroAtPeople]> (people (heap s))))
            = Some ∅).
  { unfold pending_message. cbn [robots maps]. rewrite lookup_insert_eq.
    cbn [data]. apply lookup_insert_eq. }
  assert (Hpa : pending_mentions (fresh (dom (robots (heap s))))
            (mkHeap (<[fresh (dom (robots (heap s))) :=
                         mkRobot accessToken secret (fresh (dom (maps (heap s))))
                           (fresh (dom (people (heap s))))]> (robots (heap s)))
                    (<[fresh (dom (maps (heap s))) := ∅]> (maps (heap s)))
                    (<[fresh (dom (people (heap s))) := zeroAtPeople]> (people (heap s))))
            = Some zeroAtPeople).
  { unfold pending_mentions. cbn [robots people]. rewrite lookup_insert_eq.
    cbn [at_]. apply lookup_insert_eq. }
  repeat split; try reflexivity; try (apply not_elem_of_dom, is_fresh).
  - exact Hpm.
  - exact Hpa.
  - eexists. split; [apply lookup_insert_eq|]. cbn [data at_ maps people].
    rewrite !lookup_insert_eq. split; eexists; reflexivity.
  - intros w' Hw'. unfold NewRobot. destruct (logInit w'); [reflexivity | contradiction].
Qed.

Lemma NewRobot_fresh_witness :
  logInit okWorld = None /\
  exists (r d p : loc) (s' : Store),
    NewRobot okWorld "TOK2" "SEC2" sampleStore = Some (r, s')
    /\ robots (heap sampleStore) !! r = None
    /\ pending_message r (heap s') = Some ∅.
Proof.
  split; [reflexivity|].
  destruct (NewRobot_fresh okWorld "TOK2" "SEC2" sampleStore eq_refl)
    as (r & d & p & s' & Hrun & Hr & _ & _ & _ & _ & _ & _ & Hpm & _).
  exists r, d, p, s'. split; [exact Hrun|]. split; [exact Hr | exact Hpm].
Defined.

(* ===================================================================== *)
(** ** Further properties: one call as a whole *)
(* ===================================================================== *)

Lemma send_run (w : World) (r : loc) (s : Store) (x : Robot)
    (m : Message) (a : AtPeople) :
  robots (heap s) !! r = Some x ->
  maps (heap s) !! data x = Some m ->
  people (heap s) !! at_ x = Some a ->
  send w r (data x) s = Some (send_outcome w r x m a s).
Proof.
  intros Hr Hm Ha. unfold send_outcome.
  destruct (Marshal w (merged m a)) as [reqData|err] eqn:HM.
  - exact (send_posted w r s x m a reqData Hr Hm Ha HM).
  - exact (send_marshal_failure w r s x m a err Hr Hm Ha HM).
Qed.

Lemma builder_of_run (k : Kind) (r : loc) (s : Store) (x : Robot) (m : Message) :
  robots (heap s) !! r = Some x ->
  maps (heap s) !! data x = Some m ->
  builder_of k r s = Some (tt, store_map (data x) (payload_over k m) s).
Proof.
  intros Hr Hm. destruct k; simpl.
  - now apply TextType_run.
  - now apply MarkDownType_run.
Qed.

(** The store in which [send] is entered by a call with a builder and
    options of the package. *)
Lemma call_run (w : World) (r : loc) (k : Kind) (cs : list Choice)
    (s : Store) (x : Robot) (m : Message) (a : AtPeople) :
  robots (heap s) !! r = Some x ->
  maps (heap s) !! data x = Some m ->
  people (heap s) !! at_ x = Some a ->
  BuildMsgAndSend w r (builder_of k) (map option_of cs) s =
    Some (send_outcome w r x (payload_over k m) (chosen cs a)
            (store_people (at_ x) (chosen cs a)
               (store_map (data x) (payload_over k m) s))).
Proof.
  intros Hr Hm Ha.
  rewrite (BuildMsgAndSend_run w r (builder_of k) cs s
             (store_map (data x) (payload_over k m) s) x a
             (builder_of_run k r s x m Hr Hm) Hr Ha).
  apply send_run.
  - exact Hr.
  - apply (store_map_lookup (data x) (payload_over k m) s).
  - apply store_people_lookup.
Qed.

Lemma calls_since_app (s s' : Store) (delta : list (Event * Heap)) :
  trace s' = trace s ++ delta -> calls_since s s' = map fst delta.
Proof.
  intros H. unfold calls_since. rewrite H.
  now rewrite drop_app_length.
Qed.

Lemma calls_since_failed (x : Robot) (m : Message) (a : AtPeople) (err : error)
    (s : Store) :
  calls_since s (after_failed_send x m a err s) =
    [LogError "sonic serialization failed for data" (Some err)].
Proof. now erewrite calls_since_app by reflexivity. Qed.

Lemma calls_since_posted (w : World) (r : loc) (x : Robot) (m : Message)
    (a : AtPeople) (reqData : list byte) (evs : list Event) (s : Store) :
  calls_since s (after_send w r x m a reqData evs s) =
    HttpPost (buildQuery_at (now w) x) "application/json" reqData :: evs.
Proof.
  erewrite calls_since_app by reflexivity. cbn [map fst]. f_equal.
  rewrite map_map. cbn [fst]. apply map_id.
Qed.

Lemma usable_send_outcome (w : World) (r : loc) (x : Robot) (m : Message)
    (a : AtPeople) (s : Store) :
  robots (heap s) !! r = Some x ->
  people (heap s) !! at_ x = Some a ->
  usable r (heap (send_outcome w r x m a s).2)
  /\ exists x', robots (heap (send_outcome w r x m a s).2) !! r = Some x'
                /\ AccessToken x' = AccessToken x
                /\ Secret x' = Secret x
                /\ data x' = data x.
Proof.
  intros Hr Ha. unfold send_outcome.
  destruct (Marshal w (merged m a)) as [reqData|err]; cbn [snd].
  - unfold after_send. cbn [heap]. split.
    + exists (mkRobot (AccessToken x) (Secret x) (data x)
                (fresh (dom (people (heap s))))).
      unfold reset_heap. cbn [robots maps people data at_].
      rewrite !lookup_insert_eq. repeat split; eexists; reflexivity.
    + eexists. split; [apply lookup_insert_eq|]. repeat split.
  - unfold after_failed_send. cbn [heap store_map robots maps people]. split.
    + exists x. cbn [robots maps people]. rewrite Hr, Ha, lookup_insert_eq.
      repeat split; eexists; reflexivity.
    + exists x. repeat split. exact Hr.
Qed.

(** X2.  On a usable robot, a call with a builder and options of the
    package always returns: it does not panic, whatever the encoder, the
    network and the decoder do.  The robot is usable afterwards, with
    the same token, the same secret and the same map object. *)
Theorem BuildMsgAndSend_keeps_usable (w : World) (r : loc) (k : Kind)
    (cs : list Choice) (s : Store) :
  usable r (heap s) ->
  exists (res : option error) (s' : Store),
    BuildMsgAndSend w r (builder_of k) (map option_of cs) s = Some (res, s')
    /\ usable r (heap s')
    /\ (forall x, robots (heap s) !! r = Some x ->
          exists x', robots (heap s') !! r = Some x'
                     /\ AccessToken x' = AccessToken x
                     /\ Secret x' = Secret x
                     /\ data x' = data x).
Proof.
  intros (x & Hr & [m Hm] & [a Ha]).
  pose proof (call_run w r k cs s x m a Hr Hm Ha) as Hrun.
  destruct (usable_send_outcome w r x (payload_over k m) (chosen cs a)
              (store_people (at_ x) (chosen cs a)
                 (store_map (data x) (payload_over k m) s)) Hr
              (store_people_lookup _ _ _)) as [Hus Hsame].
  destruct (send_outcome w r x (payload_over k m) (chosen cs a) _) as [res s'].
  exists res, s'. split; [exact Hrun|]. split; [exact Hus|].
  intros x0 Hx0. rewrite Hr in Hx0. injection Hx0 as <-. exact Hsame.
Qed.

Lemma sampleStore_usable : usable 1%positive (heap sampleStore).
Proof.
  exists sampleRobot. split; [reflexivity|]. split; eexists; reflexivity.
Defined.

Lemma BuildMsgAndSend_keeps_usable_witness :
  usable 1%positive (heap sampleStore) /\
  exists (res : option error) (s' : Store),
    BuildMsgAndSend downWorld 1%positive (builder_of (MarkDown "T" "B"))
      (map option_of sampleChoices) sampleStore = Some (res, s')
    /\ usable 1%positive (heap s').
Proof.
  split; [exact sampleStore_usable|].
  destruct (BuildMsgAndSend_keeps_usable downWorld 1%positive (MarkDown "T" "B")
              sampleChoices sampleStore sampleStore_usable)
    as (res & s' & Hrun & Hus & _).
  exists res, s'. split; [exact Hrun | exact Hus].
Defined.

(** X3.  When the POST fails, [send] returns the error of the POST.  The
    calls it has made are the POST and one error log record: the body is
    not read and the decoder is not consulted, so the outcome is the same
    with any decoder. *)
Theorem send_transport_failure (w : World) (r : loc) (s : Store) (x : Robot)
    (m : Message) (a : AtPeople) (reqData : list byte) (err : error) :
  robots (heap s) !! r = Some x ->
  maps (heap s) !! data x = Some m ->
  people (heap s) !! at_ x = Some a ->
  Marshal w (merged m a) = inl reqData ->
  Post w (buildQuery_at (now w) x) "application/json" reqData = inr err ->
  exists s' : Store,
    send w r (data x) s = Some (Some err, s')
    /\ calls_since s s' =
         [ HttpPost (buildQuery_at (now w) x) "application/json" reqData;
           LogError "dding talk api call failed" (Some err) ]
    /\ (forall f, send (with_Unmarshal f w) r (data x) s = Some (Some err, s')).
Proof.
  intros Hr Hm Ha HM HP.
  assert (Hrun : forall f, send (with_Unmarshal f w) r (data x) s =
            Some (Some err,
                  after_send w r x m a reqData
                    [LogError "dding talk api call failed" (Some err)] s)).
  { intros f. rewrite (send_run _ r s x m a Hr Hm Ha). unfold send_outcome.
    cbn [Marshal Post now with_Unmarshal]. rewrite HM. cbv zeta.
    rewrite HP. reflexivity. }
  eexists. split; [|split; [|exact Hrun]].
  - rewrite (send_run w r s x m a Hr Hm Ha). unfold send_outcome.
    rewrite HM. cbv zeta. rewrite HP. reflexivity.
  - apply calls_since_posted.
Qed.

Lemma send_transport_failure_witness :
  robots (heap textStore) !! 1%positive = Some sampleRobot /\
  maps (heap textStore) !! 1%positive = Some sampleText /\
  people (heap textStore) !! 1%positive = Some zeroAtPeople /\
  Marshal downWorld (merged sampleText zeroAtPeople) = inl textRequest /\
  Post downWorld (buildQuery_at (now downWorld) sampleRobot)
    "application/json" textRequest = inr (LibError "dial tcp: connection refused") /\
  exists s' : Store,
    send downWorld 1%positive (data sampleRobot) textStore =
      Some (Some (LibError "dial tcp: connection refused"), s')
    /\ calls_since textStore s' =
         [ HttpPost (buildQuery_at (now downWorld) sampleRobot)
             "application/json" textRequest;
           LogError "dding talk api call failed"
             (Some (LibError "dial tcp: connection refused")) ].
Proof.
  split; [reflexivity|]. split; [reflexivity|]. split; [reflexivity|].
  split; [reflexivity|]. split; [reflexivity|].
  destruct (send_transport_failure downWorld 1%positive textStore sampleRobot
              sampleText zeroAtPeople textRequest
              (LibError "dial tcp: connection refused")
              eq_refl eq_refl eq_refl eq_refl eq_refl)
    as (s' & Hrun & Hcalls & _).
  exists s'. split; [exact Hrun | exact Hcalls].
Defined.

(** X4.  When the POST succeeds and reading the response body fails,
    [send] returns the error of the read.  The calls it has made are the
    POST, the read and one error log record; the decoder is not
    consulted, so the outcome is the same with any decoder. *)
Theorem send_read_failure (w : World) (r : loc) (s : Store) (x : Robot)
    (m : Message) (a : AtPeople) (reqData : list byte) (err : error) :
  robots (heap s) !! r = Some x ->
  maps (heap s) !! data x = Some m ->
  people (heap s) !! at_ x = Some a ->
  Marshal w (merged m a) = inl reqData ->
  Post w (buildQuery_at (now w) x) "application/json" reqData
    = inl (mkHttpResponse (inr err)) ->
  exists s' : Store,
    send w r (data x) s = Some (Some err, s')
    /\ calls_since s s' =
         [ HttpPost (buildQuery_at (now w) x) "application/json" reqData;
           ReadAll;
           LogError "read dding talk response error" (Some err) ]
    /\ (forall f, send (with_Unmarshal f w) r (data x) s = Some (Some err, s')).
Proof.
  intros Hr Hm Ha HM HP.
  assert (Hrun : forall f, send (with_Unmarshal f w) r (data x) s =
            Some (Some err,
                  after_send w r x m a reqData
                    [ReadAll; LogError "read dding talk response error" (Some err)] s)).
  { intros f. rewrite (send_run _ r s x m a Hr Hm Ha). unfold send_outcome.
    cbn [Marshal Post now with_Unmarshal]. rewrite HM. cbv zeta.
    rewrite HP. reflexivity. }
  eexists. split; [|split; [|exact Hrun]].
  - rewrite (send_run w r s x m a Hr Hm Ha). unfold send_outcome.
    rewrite HM. cbv zeta. rewrite HP. reflexivity.
  - apply calls_since_posted.
Qed.

Lemma send_read_failure_witness :
  robots (heap textStore) !! 1%positive = Some sampleRobot /\
  maps (heap textStore) !! 1%positive = Some sampleText /\
  people (heap textStore) !! 1%positive = Some zeroAtPeople /\
  Marshal cutWorld (merged sampleText zeroAtPeople) = inl textRequest /\
  Post cutWorld (buildQuery_at (now cutWorld) sampleRobot)
    "application/json" textRequest
    = inl (mkHttpResponse (inr (LibError "unexpected EOF"))) /\
  exists s' : Store,
    send cutWorld 1%positive (data sampleRobot) textStore =
      Some (Some (LibError "unexpected EOF"), s').
Proof.
  split; [reflexivity|]. split; [reflexivity|]. split; [reflexivity|].
  split; [reflexivity|]. split; [reflexivity|].
  destruct (send_read_failure cutWorld 1%positive textStore sampleRobot
              sampleText zeroAtPeople textRequest (LibError "unexpected EOF")
              eq_refl eq_refl eq_refl eq_refl eq_refl)
    as (s' & Hrun & _).
  exists s'. exact Hrun.
Defined.

Lemma handle_answer_log (w : World) (resp : HttpResponse + error) :
  exists (pre : list Event) (lg : Event),
    (handle_answer w resp).2 = pre ++ [lg]
    /\ is_log lg = true
    /\ forallb (fun e => negb (is_log e) && negb (is_post e)) pre = true
    /\ (is_info lg = true <-> (handle_answer w resp).1 = None).
Proof.
  unfold handle_answer.
  destruct resp as [[[respData|err]]|err].
  - destruct (negb (ErrCode (Unmarshal w respData zeroResponse).1 =? 0)%Z).
    + exists [ReadAll]. eexists. split; [reflexivity|]. cbn.
      repeat split; discriminate.
    + exists [ReadAll]. eexists. split; [reflexivity|]. cbn.
      repeat split; reflexivity.
  - exists [ReadAll]. eexists. split; [reflexivity|]. cbn.
    repeat split; discriminate.
  - exists []. eexists. split; [reflexivity|]. cbn.
    repeat split; discriminate.
Qed.

Lemma filter_post_none (pre : list Event) :
  forallb (fun e => negb (is_log e) && negb (is_post e)) pre = true ->
  filter (fun e => is_post e = true) pre = [].
Proof.
  induction pre as [|e pre IH]; intros H; [reflexivity|].
  cbn [forallb] in H. apply andb_prop in H as [He Hpre].
  apply andb_prop in He as [_ Hp].
  rewrite filter_cons_False; [now apply IH|].
  destruct (is_post e); [discriminate Hp | discriminate].
Qed.

(** X5.  Every [send] on a usable robot writes exactly one log record,
    as the last thing it does; the record is at info level exactly when
    [send] returns nil, at error level otherwise. *)
Theorem send_logs_once (w : World) (r : loc) (s : Store) (x : Robot)
    (m : Message) (a : AtPeople) :
  robots (heap s) !! r = Some x ->
  maps (heap s) !! data x = Some m ->
  people (heap s) !! at_ x = Some a ->
  exists (res : option error) (s' : Store) (pre : list Event) (lg : Event),
    send w r (data x) s = Some (res, s')
    /\ calls_since s s' = pre ++ [lg]
    /\ is_log lg = true
    /\ forallb (fun e => negb (is_log e)) pre = true
    /\ (is_info lg = true <-> res = None).
Proof.
  intros Hr Hm Ha.
  rewrite (send_run w r s x m a Hr Hm Ha). unfold send_outcome.
  destruct (Marshal w (merged m a)) as [reqData|err].
  - destruct (handle_answer_log w
                (Post w (buildQuery_at (now w) x) "application/json" reqData))
      as (pre & lg & Hevs & Hlog & Hpre & Hinfo).
    cbv zeta. do 2 eexists.
    exists (HttpPost (buildQuery_at (now w) x) "application/json" reqData :: pre), lg.
    split; [reflexivity|].
    split; [rewrite calls_since_posted, Hevs; reflexivity|].
    split; [exact Hlog|]. split; [|exact Hinfo].
    cbn [forallb is_log negb andb].
    apply forallb_forall. intros e He.
    rewrite forallb_forall in Hpre. specialize (Hpre e He).
    now apply andb_prop in Hpre as [? _].
  - do 2 eexists. exists [], (LogError "sonic serialization failed for data" (Some err)).
    split; [reflexivity|].
    split; [apply calls_since_failed|].
    repeat split; discriminate.
Qed.

Lemma send_logs_once_witness :
  robots (heap textStore) !! 1%positive = Some sampleRobot /\
  maps (heap textStore) !! 1%positive = Some sampleText /\
  people (heap textStore) !! 1%positive = Some zeroAtPeople /\
  exists (res : option error) (s' : Store) (pre : list Event) (lg : Event),
    send refusedWorld 1%positive (data sampleRobot) textStore = Some (res, s')
    /\ calls_since textStore s' = pre ++ [lg]
    /\ is_log lg = true.
Proof.
  split; [reflexivity|]. split; [reflexivity|]. split; [reflexivity|].
  destruct (send_logs_once refusedWorld 1%positive textStore sampleRobot
              sampleText zeroAtPeople eq_refl eq_refl eq_refl)
    as (res & s' & pre & lg & Hrun & Hcalls & Hlog & _).
  exists res, s', pre, lg. split; [exact Hrun|]. split; [exact Hcalls | exact Hlog].
Defined.

(** X6.  [send] never posts twice.  When the encoder accepts the merged
    message there is exactly one POST, to the signed URL, with content
    type [application/json] and the encoder's output as body, whatever
    the answer: a failed POST or a refused message is not retried.  When
    the encoder rejects the message there is no POST. *)
Theorem send_posts_at_most_once (w : World) (r : loc) (s : Store) (x : Robot)
    (m : Message) (a : AtPeople) :
  robots (heap s) !! r = Some x ->
  maps (heap s) !! data x = Some m ->
  people (heap s) !! at_ x = Some a ->
  exists (res : option error) (s' : Store),
    send w r (data x) s = Some (res, s')
    /\ filter (fun e => is_post e = true) (calls_since s s') =
         match Marshal w (merged m a) with
         | inl reqData =>
             [HttpPost (buildQuery_at (now w) x) "application/json" reqData]
         | inr _ => []
         end.
Proof.
  intros Hr Hm Ha.
  rewrite (send_run w r s x m a Hr Hm Ha). unfold send_outcome.
  destruct (Marshal w (merged m a)) as [reqData|err].
  - cbv zeta. do 2 eexists. split; [reflexivity|].
    rewrite calls_since_posted.
    destruct (handle_answer_log w
                (Post w (buildQuery_at (now w) x) "application/json" reqData))
      as (pre & lg & Hevs & Hlog & Hpre & _).
    rewrite Hevs. rewrite filter_cons_True by reflexivity. f_equal.
    rewrite filter_app.
    rewrite (filter_post_none pre Hpre). cbn [app].
    destruct lg; try discriminate Hlog; reflexivity.
  - do 2 eexists. split; [reflexivity|].
    now rewrite calls_since_failed.
Qed.

Lemma send_posts_at_most_once_witness :
  robots (heap textStore) !! 1%positive = Some sampleRobot /\
  maps (heap textStore) !! 1%positive = Some sampleText /\
  people (heap textStore) !! 1%positive = Some zeroAtPeople /\
  exists (res : option error) (s' : Store),
    send downWorld 1%positive (data sampleRobot) textStore = Some (res, s')
    /\ filter (fun e => is_post e = true) (calls_since textStore s') =
         [HttpPost signedUrl "application/json" textRequest].
Proof.
  split; [reflexivity|]. split; [reflexivity|]. split; [reflexivity|].
  destruct (send_posts_at_most_once downWorld 1%positive textStore sampleRobot
              sampleText zeroAtPeople eq_refl eq_refl eq_refl)
    as (res & s' & Hrun & Hposts).
  exists res, s'. split; [exact Hrun|].
  rewrite Hposts. vm_compute. reflexivity.
Defined.

(** X7.  What a result of [send] tells the caller.  Nil is returned only
    when the message was encoded, the POST succeeded, the body was read
    and the response struct has error code 0.  An error is the encoder's
    error, the error of the POST, the error of the read, or the response
    with a non-zero code; no other error is ever returned. *)
Theorem send_result_origin (w : World) (r : loc) (s s' : Store) (x : Robot)
    (m : Message) (a : AtPeople) (res : option error) :
  robots (heap s) !! r = Some x ->
  maps (heap s) !! data x = Some m ->
  people (heap s) !! at_ x = Some a ->
  send w r (data x) s = Some (res, s') ->
  match res with
  | None =>
      exists reqData respData,
        Marshal w (merged m a) = inl reqData
        /\ Post w (buildQuery_at (now w) x) "application/json" reqData
             = inl (mkHttpResponse (inl respData))
        /\ ErrCode (Unmarshal w respData zeroResponse).1 = 0%Z
  | Some e =>
      Marshal w (merged m a) = inr e
      \/ (exists reqData,
            Marshal w (merged m a) = inl reqData
            /\ (Post w (buildQuery_at (now w) x) "application/json" reqData = inr e
                \/ Post w (buildQuery_at (now w) x) "application/json" reqData
                     = inl (mkHttpResponse (inr e))
                \/ exists respData,
                     Post w (buildQuery_at (now w) x) "application/json" reqData
                       = inl (mkHttpResponse (inl respData))
                     /\ e = RespError (Unmarshal w respData zeroResponse).1
                     /\ ErrCode (Unmarshal w respData zeroResponse).1 <> 0%Z))
  end.
Proof.
  intros Hr Hm Ha Hrun.
  rewrite (send_run w r s x m a Hr Hm Ha) in Hrun. unfold send_outcome in Hrun.
  destruct (Marshal w (merged m a)) as [reqData|err] eqn:HM.
  - cbv zeta in Hrun. unfold handle_answer in Hrun.
    destruct (Post w (buildQuery_at (now w) x) "application/json" reqData)
      as [[[respData|err]]|err] eqn:HP.
    + destruct (ErrCode (Unmarshal w respData zeroResponse).1 =? 0)%Z eqn:E;
        cbn [negb fst] in Hrun; injection Hrun as <- _.
      * apply Z.eqb_eq in E. exists reqData, respData.
        split; [reflexivity|]. split; [exact HP | exact E].
      * apply Z.eqb_neq in E. right. exists reqData. split; [reflexivity|].
        right. right. exists respData.
        split; [exact HP|]. split; [reflexivity | exact E].
    + injection Hrun as <- _. right. exists reqData. split; [reflexivity|].
      right. left. exact HP.
    + injection Hrun as <- _. right. exists reqData. split; [reflexivity|].
      left. exact HP.
  - injection Hrun as <- _. now left.
Qed.

Lemma send_result_origin_witness :
  robots (heap textStore) !! 1%positive = Some sampleRobot /\
  maps (heap textStore) !! 1%positive = Some sampleText /\
  people (heap textStore) !! 1%positive = Some zeroAtPeople /\
  send okWorld 1%positive (data sampleRobot) textStore =
    Some (None,
          after_send okWorld 1%positive sampleRobot sampleText zeroAtPeople
            textRequest
            [ReadAll; LogInfo "message was successfully send to dding talk"]
            textStore) /\
  exists reqData respData,
    Marshal okWorld (merged sampleText zeroAtPeople) = inl reqData
    /\ Post okWorld (buildQuery_at (now okWorld) sampleRobot) "application/json"
         reqData = inl (mkHttpResponse (inl respData))
    /\ ErrCode (Unmarshal okWorld respData zeroResponse).1 = 0%Z.
Proof.
  assert (Hrun : send okWorld 1%positive (data sampleRobot) textStore =
    Some (None,
          after_send okWorld 1%positive sampleRobot sampleText zeroAtPeople
            textRequest
            [ReadAll; LogInfo "message was successfully send to dding talk"]
            textStore)).
  { rewrite (send_run okWorld 1%positive textStore sampleRobot sampleText
               zeroAtPeople eq_refl eq_refl eq_refl).
    reflexivity. }
  split; [reflexivity|]. split; [reflexivity|]. split; [reflexivity|].
  split; [exact Hrun|].
  exact (send_result_origin okWorld 1%positive textStore _ sampleRobot sampleText
           zeroAtPeople None eq_refl eq_refl eq_refl Hrun).
Defined.

(* ===================================================================== *)
(** ** Further properties: the message that is sent *)
(* ===================================================================== *)

Lemma posts_of_posted (w : World) (u c : string) (body : list byte)
    (resp : HttpResponse + error) :
  filter (fun e => is_post e = true)
    (HttpPost u c body :: (handle_answer w resp).2) = [HttpPost u c body].
Proof.
  destruct (handle_answer_log w resp) as (pre & lg & Hevs & Hlog & Hpre & _).
  rewrite Hevs. rewrite filter_cons_True by reflexivity. f_equal.
  rewrite filter_app, (filter_post_none pre Hpre). cbn [app].
  destruct lg; try discriminate Hlog; reflexivity.
Qed.

(** X8.  The mention state always wins the key ["at"].  The message the
    call hands to the encoder is the builder's message with the
    serialized mention state stored under ["at"], whatever the builder
    stored there, and with every other key as the builder left it: for
    every encoder, when the encoder rejects that message the call returns
    the encoder's error and leaves that message pending, and when the
    encoder accepts it the one POST of the call has the encoder's output
    for that message as body.  The encoder is consulted on that message
    only: an encoder that answers the same on it gives the same call. *)
Theorem builder_at_is_overwritten (w : World) (r : loc) (smt : SendMsgType)
    (cs : list Choice) (s s1 : Store) (x : Robot) (m : Message) (a : AtPeople) :
  smt r s = Some (tt, s1) ->
  robots (heap s1) !! r = Some x ->
  maps (heap s1) !! data x = Some m ->
  people (heap s1) !! at_ x = Some a ->
  merged m (chosen cs a) !! "at" = Some (VMap (serialize_of (chosen cs a)))
  /\ (forall k : string, k <> "at" -> merged m (chosen cs a) !! k = m !! k)
  /\ (forall f : Message -> list byte + error,
        f (merged m (chosen cs a)) = Marshal w (merged m (chosen cs a)) ->
        BuildMsgAndSend (with_Marshal f w) r smt (map option_of cs) s =
        BuildMsgAndSend w r smt (map option_of cs) s)
  /\ (forall e : error,
        Marshal w (merged m (chosen cs a)) = inr e ->
        exists s' : Store,
          BuildMsgAndSend w r smt (map option_of cs) s = Some (Some e, s')
          /\ pending_message r (heap s') = Some (merged m (chosen cs a))
          /\ calls_since s1 s' =
               [LogError "sonic serialization failed for data" (Some e)])
  /\ (forall reqData : list byte,
        Marshal w (merged m (chosen cs a)) = inl reqData ->
        exists (res : option error) (s' : Store),
          BuildMsgAndSend w r smt (map option_of cs) s = Some (res, s')
          /\ filter (fun e => is_post e = true) (calls_since s1 s') =
               [HttpPost (buildQuery_at (now w) x) "application/json" reqData]).
Proof.
  intros Hsmt Hr Hm Ha.
  set (s2 := store_people (at_ x) (chosen cs a) s1).
  assert (Hr2 : robots (heap s2) !! r = Some x) by exact Hr.
  assert (Hm2 : maps (heap s2) !! data x = Some m) by exact Hm.
  assert (Ha2 : people (heap s2) !! at_ x = Some (chosen cs a))
    by apply store_people_lookup.
  assert (Hrun : forall w0 : World,
            BuildMsgAndSend w0 r smt (map option_of cs) s =
            Some (send_outcome w0 r x m (chosen cs a) s2)).
  { intros w0. rewrite (BuildMsgAndSend_run w0 r smt cs s s1 x a Hsmt Hr Ha).
    exact (send_run w0 r s2 x m (chosen cs a) Hr2 Hm2 Ha2). }
  split; [apply merged_at|].
  split.
  { intros k Hk. unfold merged, Const.at_. now rewrite lookup_insert_ne. }
  split.
  { intros f Hf. rewrite !Hrun.
    unfold send_outcome. cbn [Marshal with_Marshal]. rewrite Hf.
    reflexivity. }
  split.
  - intros e HM. eexists. split.
    { rewrite Hrun. unfold send_outcome. rewrite HM. reflexivity. }
    split.
    + unfold after_failed_send. cbn [heap].
      apply (pending_store_map r x (merged m (chosen cs a)) s2 Hr2).
    + erewrite (calls_since_app s1)
        by (unfold after_failed_send, s2; cbn [trace store_people]; reflexivity).
      reflexivity.
  - intros reqData HM. do 2 eexists. split.
    { rewrite Hrun. unfold send_outcome. rewrite HM. reflexivity. }
    cbn [snd].
    erewrite (calls_since_app s1)
      by (unfold after_send, s2; cbn [trace store_people]; reflexivity).
    cbn [map fst]. rewrite map_map. cbn [fst]. rewrite map_id.
    apply posts_of_posted.
Qed.

Lemma builder_at_is_overwritten_witness :
  AtType 1%positive sampleStore = Some (tt, atStore) /\
  robots (heap atStore) !! 1%positive = Some sampleRobot /\
  maps (heap atStore) !! 1%positive = Some {[ "at" := VString "mine" ]} /\
  people (heap atStore) !! 1%positive = Some zeroAtPeople /\
  Marshal okWorld (merged {[ "at" := VString "mine" ]} (chosen [All] zeroAtPeople))
    = inl atRequest /\
  exists (res : option error) (s' : Store),
    BuildMsgAndSend okWorld 1%positive AtType [WithAtAll] sampleStore = Some (res, s')
    /\ filter (fun e => is_post e = true) (calls_since atStore s') =
         [HttpPost signedUrl "application/json" atRequest].
Proof.
  split; [reflexivity|]. split; [reflexivity|]. split; [reflexivity|].
  split; [reflexivity|]. split; [reflexivity|].
  destruct (builder_at_is_overwritten okWorld 1%positive AtType [All] sampleStore
              atStore sampleRobot {[ "at" := VString "mine" ]} zeroAtPeople
              eq_refl eq_refl eq_refl eq_refl) as (_ & _ & _ & _ & Hpost).
  destruct (Hpost atRequest eq_refl) as (res & s' & Hrun & Hposts).
  exists res, s'. split; [exact Hrun | exact Hposts].
Defined.

Lemma sextet_alphabet (i : N) :
  In (Base64.sextet i) (list_ascii_of_string Base64.encodeStd).
Proof.
  unfold Base64.sextet.
  assert (H : (N.to_nat (i mod 64) < 64)%nat).
  { pose proof (N.mod_lt i 64 ltac:(discriminate)) as Hlt.
    change 64%nat with (N.to_nat 64). lia. }
  generalize dependent (N.to_nat (i mod 64)). intros n Hn.
  do 64 (destruct n as [|n]; [cbn; tauto|]).
  lia.
Qed.

Lemma encode_chars (n : nat) :
  forall bs : list byte, length bs <= n ->
    Forall base64_char (list_ascii_of_string (Base64.encode bs)).
Proof.
  assert (Hs : forall i, base64_char (Base64.sextet i))
    by (intros i; left; apply sextet_alphabet).
  assert (Hp : base64_char Base64.padChar) by (right; reflexivity).
  induction n as [|n IH]; intros bs Hlen.
  - destruct bs; [constructor | simpl in Hlen; lia].
  - destruct bs as [|b1 [|b2 [|b3 rest]]];
      cbn [Base64.encode list_ascii_of_string].
    + constructor.
    + repeat (constructor; [first [apply Hs | exact Hp]|]). constructor.
    + repeat (constructor; [first [apply Hs | exact Hp]|]). constructor.
    + repeat (constructor; [apply Hs|]).
      apply IH. simpl in Hlen. lia.
Qed.

(** X9.  The value of [sign] in the URL of [buildQuery] is 44 characters
    long and each of them is a character of the standard base64 alphabet
    (which has [+] and [/]) or the padding [=]; the URL ends with it. *)
Theorem buildQuery_sign_alphabet (w : World) (r : loc) (s : Store) (x : Robot) :
  robots (heap s) !! r = Some x ->
  exists pre sign : string,
    buildQuery w r s = Some (pre +:+ "&sign=" +:+ sign, s)
    /\ pre = Const.apiUrl +:+ AccessToken x +:+ "&timestamp=" +:+ Fmt.d (now w)
    /\ String.length sign = 44%nat
    /\ Forall base64_char (list_ascii_of_string sign).
Proof.
  intros Hr.
  exists (Const.apiUrl +:+ AccessToken x +:+ "&timestamp=" +:+ Fmt.d (now w)),
         (signature_of (now w) (Secret x)).
  split.
  { rewrite (buildQuery_run w r s x Hr), buildQuery_at_eq.
    now rewrite !append_assoc. }
  split; [reflexivity|].
  split; [apply signature_shape|].
  unfold signature_of. now apply (encode_chars 32); rewrite hmac_length.
Qed.

Lemma buildQuery_sign_alphabet_witness :
  robots (heap sampleStore) !! 1%positive = Some sampleRobot /\
  exists pre sign : string,
    buildQuery okWorld 1%positive sampleStore = Some (pre +:+ "&sign=" +:+ sign, sampleStore)
    /\ Forall base64_char (list_ascii_of_string sign).
Proof.
  split; [reflexivity|].
  destruct (buildQuery_sign_alphabet okWorld 1%positive sampleStore sampleRobot eq_refl)
    as (pre & sign & Hrun & _ & _ & Hchars).
  exists pre, sign. split; [exact Hrun | exact Hchars].
Defined.

Lemma payload_over_eq (k : Kind) (c : Message) :
  payload_over k c =
    <[kind_name k := payload_of k]> (<[Const.msgType := VString (kind_name k)]> c).
Proof. destruct k; reflexivity. Qed.

Lemma kind_name_not_msgtype (k : Kind) : kind_name k <> "msgtype".
Proof. destruct k; discriminate. Qed.

(** X10.  The builders only write their own two keys and do not clear the
    message.  When a second builder of the package runs on the message of
    a first one, [msgtype] names the second kind, the payload of the
    second kind is present, the payload entry of the first kind is still
    there when the kinds differ, and every other entry is untouched. *)
Theorem builders_compose (k1 k2 : Kind) (r : loc) (s : Store) (x : Robot)
    (m : Message) :
  robots (heap s) !! r = Some x ->
  maps (heap s) !! data x = Some m ->
  (builder_of k1 r;;; builder_of k2 r) s =
    Some (tt, store_map (data x) (payload_over k2 (payload_over k1 m)) s)
  /\ payload_over k2 (payload_over k1 m) !! "msgtype" = Some (VString (kind_name k2))
  /\ payload_over k2 (payload_over k1 m) !! kind_name k2 = Some (payload_of k2)
  /\ (kind_name k1 <> kind_name k2 ->
        payload_over k2 (payload_over k1 m) !! kind_name k1 = Some (payload_of k1))
  /\ (forall key : string,
        key <> "msgtype" -> key <> kind_name k1 -> key <> kind_name k2 ->
        payload_over k2 (payload_over k1 m) !! key = m !! key).
Proof.
  intros Hr Hm.
  pose proof (kind_name_not_msgtype k1) as N1.
  pose proof (kind_name_not_msgtype k2) as N2.
  split.
  { erewrite bind_run by (apply (builder_of_run k1 r s x m Hr Hm)). cbv beta.
    rewrite (builder_of_run k2 r (store_map (data x) (payload_over k1 m) s) x
               (payload_over k1 m) Hr (store_map_lookup _ _ _)).
    now rewrite store_map_twice. }
  rewrite !payload_over_eq. unfold Const.msgType.
  split; [rewrite lookup_insert_ne by exact N2; apply lookup_insert_eq|].
  split; [apply lookup_insert_eq|].
  split.
  - intros Hne.
    rewrite lookup_insert_ne by congruence.
    rewrite lookup_insert_ne by congruence.
    apply lookup_insert_eq.
  - intros key K0 K1 K2.
    rewrite lookup_insert_ne by congruence.
    rewrite lookup_insert_ne by congruence.
    rewrite lookup_insert_ne by congruence.
    now rewrite lookup_insert_ne by congruence.
Qed.

Lemma builders_compose_witness :
  robots (heap sampleStore) !! 1%positive = Some sampleRobot /\
  maps (heap sampleStore) !! 1%positive = Some ∅ /\
  (builder_of (Text "hello") 1%positive;;; builder_of (MarkDown "T" "B") 1%positive)
    sampleStore =
    Some (tt, store_map 1%positive
                {[ "msgtype" := VString "markdown";
                   "markdown" := VStringMap {[ "title" := "T"; "text" := "B" ]};
                   "text" := VStringMap {[ "content" := "hello" ]} ]}
                sampleStore).
Proof.
  split; [reflexivity|]. split; [reflexivity|].
  pose proof (builders_compose (Text "hello") (MarkDown "T" "B") 1%positive
                sampleStore sampleRobot ∅ eq_refl eq_refl) as [H _].
  rewrite H. reflexivity.
Defined.

(* ===================================================================== *)
(** ** Further properties: options *)
(* ===================================================================== *)

Lemma with_options_run (cs : list Choice) (p : loc) :
  forall (s : Store) (a : AtPeople),
    people (heap s) !! p = Some a ->
    with_options (map option_of cs) p s =
      Some (serialize_of (chosen cs a), store_people p (chosen cs a) s).
Proof.
  induction cs as [|c cs IH]; intros s a Ha.
  - cbn [map chosen fold_left]. rewrite (with_options_nil p s a Ha).
    now rewrite store_people_id.
  - cbn [map]. rewrite (with_options_cons _ _ _ _ _ (option_of_run c p s a Ha)).
    rewrite (IH _ (choose c a) (store_people_lookup _ _ _)).
    now rewrite store_people_twice.
Qed.

Lemma choose_swap (c1 c2 : Choice) (a : AtPeople) :
  field_of c1 <> field_of c2 ->
  choose c1 (choose c2 a) = choose c2 (choose c1 a).
Proof. destruct c1, c2; simpl; intros H; try reflexivity; contradiction. Qed.

Lemma chosen_perm (cs cs' : list Choice) :
  cs ≡ₚ cs' -> NoDup (map field_of cs) ->
  forall a, chosen cs a = chosen cs' a.
Proof.
  induction 1 as [|c l l' Hp IH|c1 c2 l|l l' l'' Hp1 IH1 Hp2 IH2];
    intros Hnd a.
  - reflexivity.
  - cbn [map] in Hnd. apply NoDup_cons in Hnd as [_ Hnd].
    unfold chosen in *. cbn [fold_left]. now apply IH.
  - cbn [map] in Hnd. apply NoDup_cons in Hnd as [Hnotin _].
    unfold chosen. cbn [fold_left]. rewrite choose_swap; [reflexivity|].
    intros Heq. apply Hnotin. rewrite Heq. left.
  - rewrite IH1 by exact Hnd. apply IH2.
    now rewrite <- Hp1.
Qed.

(** X11.  Options that write different fields can be given in any order:
    for a list of options of the package no two of which write the same
    field, every reordering leaves the same mention state and the same
    serialized mapping. *)
Theorem options_commute (cs cs' : list Choice) (p : loc) (s : Store)
    (a : AtPeople) :
  people (heap s) !! p = Some a ->
  cs ≡ₚ cs' ->
  NoDup (map field_of cs) ->
  with_options (map option_of cs) p s = with_options (map option_of cs') p s
  /\ with_options (map option_of cs) p s =
       Some (serialize_of (chosen cs a), store_people p (chosen cs a) s).
Proof.
  intros Ha Hp Hnd.
  rewrite (with_options_run cs p s a Ha), (with_options_run cs' p s a Ha).
  now rewrite (chosen_perm cs cs' Hp Hnd a).
Qed.

Lemma options_commute_witness :
  people (heap sampleStore) !! 1%positive = Some zeroAtPeople /\
  [Mobiles ["111"]; All; UserIds ["u1"]] ≡ₚ [UserIds ["u1"]; Mobiles ["111"]; All] /\
  NoDup (map field_of [Mobiles ["111"]; All; UserIds ["u1"]]) /\
  with_options [WithAtMobiles ["111"]; WithAtAll; WithAtUserIds ["u1"]]
    1%positive sampleStore =
  with_options [WithAtUserIds ["u1"]; WithAtMobiles ["111"]; WithAtAll]
    1%positive sampleStore.
Proof.
  assert (Hp : [Mobiles ["111"]; All; UserIds ["u1"]]
               ≡ₚ [UserIds ["u1"]; Mobiles ["111"]; All]).
  { change ([Mobiles ["111"]; All] ++ [UserIds ["u1"]]
            ≡ₚ [UserIds ["u1"]] ++ [Mobiles ["111"]; All]).
    apply Permutation_app_comm. }
  assert (Hnd : NoDup (map field_of [Mobiles ["111"]; All; UserIds ["u1"]])).
  { cbn. repeat constructor; set_solver. }
  split; [reflexivity|]. split; [exact Hp|]. split; [exact Hnd|].
  apply (options_commute _ _ 1%positive sampleStore zeroAtPeople eq_refl Hp Hnd).
Defined.

(** X12.  No option of the package resets the mention-all flag: when the
    flag is set in the mention state a call starts from, it is set in the
    state its options leave, and the serialized mapping has
    [isAtAll: true], whatever the options are. *)
Theorem mention_all_is_sticky (cs : list Choice) (p : loc) (s : Store)
    (a : AtPeople) :
  people (heap s) !! p = Some a ->
  isAtAll a = true ->
  exists m : gmap string Value,
    with_options (map option_of cs) p s =
      Some (m, store_people p (chosen cs a) s)
    /\ isAtAll (chosen cs a) = true
    /\ m !! "isAtAll" = Some (VBool true).
Proof.
  intros Ha Hall.
  assert (Hflag : isAtAll (chosen cs a) = true).
  { rewrite chosen_all, Hall. reflexivity. }
  eexists. split; [apply (with_options_run cs p s a Ha)|].
  split; [exact Hflag|].
  apply serialize_of_lookup. right. right. now repeat split.
Qed.

Lemma mention_all_is_sticky_witness :
  people (heap (store_people 1%positive (mkAtPeople [] [] true) sampleStore))
    !! 1%positive = Some (mkAtPeople [] [] true) /\
  isAtAll (mkAtPeople [] [] true) = true /\
  exists m : gmap string Value,
    with_options [WithAtMobiles []; WithAtUserIds ["u1"]] 1%positive
      (store_people 1%positive (mkAtPeople [] [] true) sampleStore) =
      Some (m, store_people 1%positive (mkAtPeople [] ["u1"] true) sampleStore)
    /\ m !! "isAtAll" = Some (VBool true).
Proof.
  split; [reflexivity|]. split; [reflexivity|].
  destruct (mention_all_is_sticky [Mobiles []; UserIds ["u1"]] 1%positive
              (store_people 1%positive (mkAtPeople [] [] true) sampleStore)
              (mkAtPeople [] [] true) eq_refl eq_refl)
    as (m & Hrun & _ & Hm).
  exists m. split; [|exact Hm].
  rewrite store_people_twice in Hrun. exact Hrun.
Defined.

(* ===================================================================== *)
(** ** Further properties: several robots, unusable robots *)
(* ===================================================================== *)

(** X13.  A call on one robot leaves every other robot alone: a robot
    that shares neither its map nor its mention struct with the robot of
    the call (as two robots made by [NewRobot] do not) has the same
    fields, the same pending message and the same mention state after the
    call, whatever the outcome. *)
Theorem other_robot_untouched (w : World) (r r2 : loc) (k : Kind)
    (cs : list Choice) (s : Store) (x y : Robot) (m my : Message)
    (a b : AtPeople) :
  robots (heap s) !! r = Some x ->
  maps (heap s) !! data x = Some m ->
  people (heap s) !! at_ x = Some a ->
  robots (heap s) !! r2 = Some y ->
  maps (heap s) !! data y = Some my ->
  people (heap s) !! at_ y = Some b ->
  data y <> data x ->
  at_ y <> at_ x ->
  exists (res : option error) (s' : Store),
    BuildMsgAndSend w r (builder_of k) (map option_of cs) s = Some (res, s')
    /\ robots (heap s') !! r2 = Some y
    /\ pending_message r2 (heap s') = Some my
    /\ pending_mentions r2 (heap s') = Some b.
Proof.
  intros Hr Hm Ha Hr2 Hm2 Ha2 Hd Hat.
  assert (Hrr : r <> r2) by (intros ->; congruence).
  rewrite (call_run w r k cs s x m a Hr Hm Ha). unfold send_outcome.
  destruct (Marshal w (merged (payload_over k m) (chosen cs a))) as [reqData|err].
  - do 2 eexists. split; [reflexivity|].
    unfold pending_message, pending_mentions, after_send, reset_heap.
    cbn [heap robots maps people store_map store_people snd].
    assert (Hfresh : fresh (dom (<[at_ x := chosen cs a]> (people (heap s))))
                     <> at_ y).
    { intros Heq.
      apply (is_fresh (dom (<[at_ x := chosen cs a]> (people (heap s))))).
      rewrite Heq. apply elem_of_dom. exists b.
      rewrite lookup_insert_ne by congruence. exact Ha2. }
    rewrite !(lookup_insert_ne _ r r2) by exact Hrr. rewrite Hr2.
    rewrite !(lookup_insert_ne _ (data x) (data y)) by congruence.
    rewrite (lookup_insert_ne _ _ (at_ y)) by exact Hfresh.
    rewrite (lookup_insert_ne _ (at_ x) (at_ y)) by congruence.
    repeat split; assumption.
  - do 2 eexists. split; [reflexivity|].
    unfold pending_message, pending_mentions, after_failed_send.
    cbn [heap robots maps people store_map store_people snd].
    rewrite Hr2.
    rewrite !(lookup_insert_ne _ (data x) (data y)) by congruence.
    rewrite (lookup_insert_ne _ (at_ x) (at_ y)) by congruence.
    repeat split; assumption.
Qed.

Lemma other_robot_untouched_witness :
  robots (heap twoStore) !! 1%positive = Some sampleRobot /\
  maps (heap twoStore) !! data sampleRobot = Some ∅ /\
  people (heap twoStore) !! at_ sampleRobot = Some zeroAtPeople /\
  robots (heap twoStore) !! 2%positive = Some secondRobot /\
  maps (heap twoStore) !! data secondRobot = Some ∅ /\
  people (heap twoStore) !! at_ secondRobot = Some zeroAtPeople /\
  data secondRobot <> data sampleRobot /\
  at_ secondRobot <> at_ sampleRobot /\
  exists (res : option error) (s' : Store),
    BuildMsgAndSend okWorld 1%positive (builder_of (Text "hello"))
      (map option_of sampleChoices) twoStore = Some (res, s')
    /\ pending_message 2%positive (heap s') = Some ∅
    /\ pending_mentions 2%positive (heap s') = Some zeroAtPeople.
Proof.
  assert (Hd : data secondRobot <> data sampleRobot) by discriminate.
  assert (Hat : at_ secondRobot <> at_ sampleRobot) by discriminate.
  split; [reflexivity|]. split; [reflexivity|]. split; [reflexivity|].
  split; [reflexivity|]. split; [reflexivity|]. split; [reflexivity|].
  split; [exact Hd|]. split; [exact Hat|].
  destruct (other_robot_untouched okWorld 1%positive 2%positive (Text "hello")
              sampleChoices twoStore sampleRobot secondRobot ∅ ∅
              zeroAtPeople zeroAtPeople
              eq_refl eq_refl eq_refl eq_refl eq_refl eq_refl Hd Hat)
    as (res & s' & Hrun & _ & Hpm & Hpa).
  exists res, s'. split; [exact Hrun|]. split; [exact Hpm | exact Hpa].
Defined.

(** X14.  A robot whose map or mention struct is nil (a [Robot] that was
    not made by [NewRobot]) makes the call panic instead of returning an
    error.  With a nil map both builders of the package panic, so the
    call does; with a nil mention struct every option of the package and
    [send] itself panic, so the call does even when the builder does
    nothing. *)
Theorem nil_fields_panic (w : World) (r : loc) (s : Store) (x : Robot) :
  robots (heap s) !! r = Some x ->
  (maps (heap s) !! data x = None ->
     forall (k : Kind) (opts : list AtOption),
       builder_of k r s = None
       /\ BuildMsgAndSend w r (builder_of k) opts s = None)
  /\ (people (heap s) !! at_ x = None ->
        (forall c : Choice, option_of c (at_ x) s = None)
        /\ (forall msg : loc, send w r msg s = None)
        /\ (forall (smt : SendMsgType) (cs : list Choice),
              smt r s = Some (tt, s) ->
              BuildMsgAndSend w r smt (map option_of cs) s = None)).
Proof.
  intros Hr. split.
  - intros Hnil k opts.
    assert (Hb : builder_of k r s = None).
    { destruct k; unfold builder_of, TextType, MarkDownType;
        (erewrite bind_run by (apply getRobot_run; exact Hr)); cbv beta;
        unfold bind at 1; unfold mapAssign, bind, get_heap;
        now rewrite Hnil. }
    split; [exact Hb|].
    unfold BuildMsgAndSend. unfold bind at 1. now rewrite Hb.
  - intros Hnil.
    assert (Hopt : forall c : Choice, option_of c (at_ x) s = None).
    { intros c.
      destruct c; unfold option_of, WithAtMobiles, WithAtUserIds, WithAtAll;
        unfold bind at 1; unfold getPeople, bind, get_heap; now rewrite Hnil. }
    assert (Hsend : forall msg : loc, send w r msg s = None).
    { intros msg. unfold send.
      erewrite bind_run by (apply buildQuery_run; exact Hr). cbv beta.
      erewrite bind_run by (apply getRobot_run; exact Hr). cbv beta.
      unfold bind at 1. unfold serialize. unfold bind at 1.
      unfold getPeople, bind, get_heap. now rewrite Hnil. }
    split; [exact Hopt|]. split; [exact Hsend|].
    intros smt cs Hsmt. unfold BuildMsgAndSend.
    erewrite bind_run by exact Hsmt. cbv beta.
    destruct cs as [|c cs].
    + cbn [map forEach]. unfold bind at 1. unfold ret.
      erewrite bind_run by (apply getRobot_run; exact Hr). cbv beta.
      apply Hsend.
    + cbn [map forEach]. unfold bind at 1. unfold bind at 1.
      erewrite bind_run by (apply getRobot_run; exact Hr). cbv beta.
      now rewrite Hopt.
Qed.

Lemma nil_fields_panic_witness :
  robots (heap bareStore) !! 1%positive = Some sampleRobot /\
  maps (heap bareStore) !! data sampleRobot = None /\
  BuildMsgAndSend okWorld 1%positive (builder_of (Text "hello")) [WithAtAll] bareStore
    = None.
Proof.
  split; [reflexivity|]. split; [reflexivity|].
  destruct (nil_fields_panic okWorld 1%positive bareStore sampleRobot eq_refl)
    as [Hmap _].
  apply (Hmap eq_refl (Text "hello") [WithAtAll]).
Defined.

(* ===================================================================== *)
(** ** Further properties: from construction to the request *)
(* ===================================================================== *)

Lemma NewRobot_run (w : World) (accessToken secret : string) (s : Store) :
  logInit w = None ->
  NewRobot w accessToken secret s =
    Some (fresh (dom (robots (heap s))),
          mkStore
            (mkHeap (<[fresh (dom (robots (heap s))) :=
                         mkRobot accessToken secret (fresh (dom (maps (heap s))))
                           (fresh (dom (people (heap s))))]> (robots (heap s)))
                    (<[fresh (dom (maps (heap s))) := ∅]> (maps (heap s)))
                    (<[fresh (dom (people (heap s))) := zeroAtPeople]>
                       (people (heap s))))
            (trace s)).
Proof.
  intros Hlog. unfold NewRobot. rewrite Hlog.
  erewrite bind_run by apply makeMessage_run. cbv beta.
  erewrite bind_run by apply newAtPeople_run. cbv beta.
  rewrite allocRobot_run. reflexivity.
Qed.

(** X15.  From construction to the request.  On a robot just made by
    [NewRobot] with a token and a secret, a call with a builder and
    options of the package hands the encoder exactly the builder's two
    entries and the mention mapping of these options under ["at"].  When
    the encoder accepts it, the first call made is the POST of the
    encoder's output, with content type [application/json], to the base
    URL followed by that token, the clock reading and the signature made
    with that secret; afterwards the pending message is empty and the
    mention state zero again. *)
Theorem fresh_robot_request (w0 w : World) (accessToken secret : string)
    (k : Kind) (cs : list Choice) (s : Store) (reqData : list byte) :
  logInit w0 = None ->
  Marshal w (merged (payload_over k ∅) (chosen cs zeroAtPeople)) = inl reqData ->
  exists (r : loc) (s1 : Store) (res : option error) (s2 : Store)
         (evs : list Event),
    NewRobot w0 accessToken secret s = Some (r, s1)
    /\ BuildMsgAndSend w r (builder_of k) (map option_of cs) s1 = Some (res, s2)
    /\ calls_since s s2 =
         HttpPost (Const.apiUrl +:+ accessToken +:+ "&timestamp=" +:+ Fmt.d (now w)
                     +:+ "&sign=" +:+ signature_of (now w) secret)
           "application/json" reqData :: evs
    /\ pending_message r (heap s2) = Some ∅
    /\ pending_mentions r (heap s2) = Some zeroAtPeople.
Proof.
  intros Hlog HM.
  pose proof (NewRobot_run w0 accessToken secret s Hlog) as Hnew.
  set (r := fresh (dom (robots (heap s)))) in *.
  set (d := fresh (dom (maps (heap s)))) in *.
  set (p := fresh (dom (people (heap s)))) in *.
  set (x := mkRobot accessToken secret d p) in *.
  set (s1 := mkStore _ (trace s)) in Hnew.
  assert (Hr : robots (heap s1) !! r = Some x) by apply lookup_insert_eq.
  assert (Hm : maps (heap s1) !! data x = Some ∅) by apply lookup_insert_eq.
  assert (Ha : people (heap s1) !! at_ x = Some zeroAtPeople)
    by apply lookup_insert_eq.
  pose proof (call_run w r k cs s1 x ∅ zeroAtPeople Hr Hm Ha) as Hcall.
  unfold send_outcome in Hcall. rewrite HM in Hcall. cbv zeta in Hcall.
  exists r, s1. do 3 eexists.
  split; [exact Hnew|]. split; [exact Hcall|].
  split; [|split; [apply pending_message_reset | apply pending_mentions_reset]].
  unfold calls_since, after_send. cbn [trace heap store_map store_people].
  rewrite drop_app_length. cbn [map fst].
  rewrite buildQuery_at_eq. reflexivity.
Qed.

Lemma fresh_robot_request_witness :
  logInit okWorld = None /\
  Marshal okWorld (merged (payload_over (Text "hello") ∅) (chosen [] zeroAtPeople))
    = inl textRequest /\
  exists (r : loc) (s1 : Store) (res : option error) (s2 : Store)
         (evs : list Event),
    NewRobot okWorld "TOK" "SEC000000" emptyStore = Some (r, s1)
    /\ BuildMsgAndSend okWorld r (builder_of (Text "hello")) (map option_of []) s1
         = Some (res, s2)
    /\ calls_since emptyStore s2 =
         HttpPost signedUrl "application/json" textRequest :: evs.
Proof.
  split; [reflexivity|]. split; [reflexivity|].
  destruct (fresh_robot_request okWorld okWorld "TOK" "SEC000000" (Text "hello") []
              emptyStore textRequest eq_refl eq_refl)
    as (r & s1 & res & s2 & evs & Hnew & Hcall & Hcalls & _).
  exists r, s1, res, s2, evs. split; [exact Hnew|]. split; [exact Hcall|].
  exact Hcalls.
Defined.

(* ===================================================================== *)
(** ** Further properties: a message the encoder keeps rejecting *)
(* ===================================================================== *)

(** X16.  Since a failed encoding clears nothing, an entry the encoder
    rejects blocks the robot for the builders of the package.  When the
    pending message has an entry under a key that neither builder nor
    [send] writes, and the encoder rejects every message with that entry,
    a call with a builder and options of the package returns an encoder
    error, posts nothing, and leaves the robot usable with the entry
    still pending: the next call is in the same situation. *)
Theorem rejected_entry_persists (w : World) (r : loc) (k : Kind)
    (cs : list Choice) (s : Store) (x : Robot) (m : Message) (a : AtPeople)
    (key : string) (v : Value) :
  robots (heap s) !! r = Some x ->
  maps (heap s) !! data x = Some m ->
  people (heap s) !! at_ x = Some a ->
  m !! key = Some v ->
  key <> "at" -> key <> "msgtype" -> key <> "text" -> key <> "markdown" ->
  (forall msg : Message, msg !! key = Some v -> exists e, Marshal w msg = inr e) ->
  exists (e : error) (s' : Store) (m' : Message),
    BuildMsgAndSend w r (builder_of k) (map option_of cs) s = Some (Some e, s')
    /\ Marshal w m' = inr e
    /\ calls_since s s' = [LogError "sonic serialization failed for data" (Some e)]
    /\ robots (heap s') !! r = Some x
    /\ maps (heap s') !! data x = Some m'
    /\ m' !! key = Some v
    /\ people (heap s') !! at_ x = Some (chosen cs a).
Proof.
  intros Hr Hm Ha Hkey Kat Kmsg Ktext Kmd Hrej.
  set (m' := merged (payload_over k m) (chosen cs a)).
  assert (Hm' : m' !! key = Some v).
  { unfold m', merged, Const.at_. rewrite lookup_insert_ne by congruence.
    rewrite payload_over_eq. unfold Const.msgType.
    rewrite lookup_insert_ne
      by (destruct k; unfold kind_name, Const.textType, Const.markdownType;
          congruence).
    rewrite lookup_insert_ne by congruence. exact Hkey. }
  destruct (Hrej m' Hm') as [e He].
  exists e. eexists. exists m'.
  split.
  { rewrite (call_run w r k cs s x m a Hr Hm Ha). unfold send_outcome.
    fold m'. rewrite He. reflexivity. }
  split; [exact He|].
  split; [now erewrite calls_since_app by reflexivity|].
  cbn [heap robots maps people store_map store_people after_failed_send].
  split; [exact Hr|].
  split; [now rewrite lookup_insert_eq|].
  split; [exact Hm'|].
  apply lookup_insert_eq.
Qed.

Lemma json_rejects_chan (msg : Message) :
  msg !! "ch" = Some VChan -> exists e, Marshal okWorld msg = inr e.
Proof.
  intros H. exists marshalError.
  cbn [Marshal okWorld sampleWorld]. unfold Json.marshal.
  cbn [Json.value].
  destruct (decide (map_Forall (fun _ o => is_Some o) (Json.value <$> msg)))
    as [Hall|Hnot]; [|reflexivity].
  exfalso.
  specialize (Hall "ch" None). rewrite lookup_fmap, H in Hall.
  destruct (Hall eq_refl) as [? Hx]. discriminate Hx.
Defined.

Lemma rejected_entry_persists_witness :
  robots (heap chanStore) !! 1%positive = Some sampleRobot /\
  maps (heap chanStore) !! data sampleRobot = Some {[ "ch" := VChan ]} /\
  people (heap chanStore) !! at_ sampleRobot = Some zeroAtPeople /\
  ({[ "ch" := VChan ]} : Message) !! "ch" = Some VChan /\
  exists (e : error) (s' : Store) (m' : Message),
    BuildMsgAndSend okWorld 1%positive (builder_of (Text "hello")) (map option_of [])
      chanStore = Some (Some e, s')
    /\ maps (heap s') !! data sampleRobot = Some m'
    /\ m' !! "ch" = Some VChan.
Proof.
  split; [reflexivity|]. split; [reflexivity|]. split; [reflexivity|].
  split; [reflexivity|].
  destruct (rejected_entry_persists okWorld 1%positive (Text "hello") [] chanStore
              sampleRobot {[ "ch" := VChan ]} zeroAtPeople "ch" VChan
              eq_refl eq_refl eq_refl eq_refl
              ltac:(discriminate) ltac:(discriminate) ltac:(discriminate)
              ltac:(discriminate) json_rejects_chan)
    as (e & s' & m' & Hrun & _ & _ & _ & Hmap & Hkey & _).
  exists e, s', m'. split; [exact Hrun|]. split; [exact Hmap | exact Hkey].
Defined.
